(** * TsunamiWatch: the alerting pipeline of [email_alert.py] and the
      tier table of [tsunami_dashboard.py]

    A shallow embedding of the Python code.  Values decoded from JSON are
    the inductive [pyval]; Python exceptions are the [Raise] case of
    [result]; the builtins the code relies on ([v[k]], [v.get(k, d)],
    [len], comparisons against a float literal, [x in v]) are written out
    with the exceptions they raise on each kind of value.

    Numbers.  A Python [int] or [float] is modelled by a rational; a float
    literal of the source ([0.4], [7.5], ...) is its decimal value.  The
    code only compares numbers with such literals and never does
    arithmetic on probabilities, so every comparison made here has the
    outcome it has on binary64 for finite values.  [True] and [False]
    count as [1] and [0] in comparisons, as in Python. *)

From Stdlib Require Import QArith Lqa Ascii.
From stdpp Require Import base list strings.

Set Warnings "-register-all".
Open Scope string_scope.

(** ** Python values and exceptions *)

Inductive pyval : Type :=
  | PNone
  | PBool (b : bool)
  | PNum (q : Q)
  | PStr (s : string)
  | PList (l : list pyval)
  | PDict (d : list (string * pyval)).

Inductive exn : Type :=
  | KeyError
  | IndexError
  | TypeError
  | AttributeError
  | ValueError
  | IOError
  | OverflowError.

Inductive result (A : Type) : Type :=
  | Ok (a : A)
  | Raise (e : exn).
Arguments Ok {A} a.
Arguments Raise {A} e.

#[global] Instance result_ret : MRet result := fun _ a => Ok a.
#[global] Instance result_bind : MBind result := fun _ _ f m =>
  match m with
  | Ok a => f a
  | Raise e => Raise e
  end.

(** [try: ... except Exception: ...] seen from outside: the value, or
    nothing. *)
Definition try_opt {A} (m : result A) : option A :=
  match m with
  | Ok a => Some a
  | Raise _ => None
  end.

(** ** Builtins *)

Module Py.

(** The binding of key [k] in a dict; a decoded JSON object has each key
    once. *)
Fixpoint assoc (k : string) (d : list (string * pyval)) : option pyval :=
  match d with
  | [] => None
  | (k', v) :: d' => if String.eqb k k' then Some v else assoc k d'
  end.

(** [v[k]] for a string key [k]. *)
Definition getitem (v : pyval) (k : string) : result pyval :=
  match v with
  | PDict d =>
      match assoc k d with
      | Some x => Ok x
      | None => Raise KeyError
      end
  | _ => Raise TypeError
  end.

(** [v.get(k, default)]. *)
Definition get (v : pyval) (k : string) (default : pyval) : result pyval :=
  match v with
  | PDict d =>
      match assoc k d with
      | Some x => Ok x
      | None => Ok default
      end
  | _ => Raise AttributeError
  end.

(** [v[n]] for a literal index [n >= 0]. *)
Definition index (v : pyval) (n : nat) : result pyval :=
  match v with
  | PList l =>
      match l !! n with
      | Some x => Ok x
      | None => Raise IndexError
      end
  | PStr s =>
      match String.get n s with
      | Some c => Ok (PStr (String c EmptyString))
      | None => Raise IndexError
      end
  | PDict _ => Raise KeyError
  | _ => Raise TypeError
  end.

(** [len(v)]. *)
Definition len (v : pyval) : result nat :=
  match v with
  | PList l => Ok (length l)
  | PStr s => Ok (String.length s)
  | PDict d => Ok (length d)
  | _ => Raise TypeError
  end.

(** The numeric reading of a value, when it has one. *)
Definition num (v : pyval) : option Q :=
  match v with
  | PNum q => Some q
  | PBool b => Some (if b then 1 else 0)%Q
  | _ => None
  end.

(** [v >= q] and [v < q] for a float literal [q]. *)
Definition ge (v : pyval) (q : Q) : result bool :=
  match num v with
  | Some x => Ok (Qle_bool q x)
  | None => Raise TypeError
  end.

Definition lt (v : pyval) (q : Q) : result bool :=
  match num v with
  | Some x => Ok (negb (Qle_bool q x))
  | None => Raise TypeError
  end.

(** [v / q] for a non-zero numeric literal [q]. *)
Definition div (v : pyval) (q : Q) : result Q :=
  match num v with
  | Some x => Ok (x / q)%Q
  | None => Raise TypeError
  end.

(** [v == q] for a numeric literal [q]; [==] never raises. *)
Definition eq_num (v : pyval) (q : Q) : bool :=
  match num v with
  | Some x => Qeq_bool x q
  | None => false
  end.

(** Truthiness, as tested by [if not v]. *)
Definition truthy (v : pyval) : bool :=
  match v with
  | PNone => false
  | PBool b => b
  | PNum q => negb (Qeq_bool q 0)
  | PStr s => negb (String.eqb s "")
  | PList l => negb (Nat.eqb (length l) 0)
  | PDict d => negb (Nat.eqb (length d) 0)
  end.

Fixpoint char_in (c : ascii) (s : string) : bool :=
  match s with
  | EmptyString => false
  | String c' s' => if Ascii.eqb c c' then true else char_in c s'
  end.

Definition is_str (c : ascii) (v : pyval) : bool :=
  match v with
  | PStr s => String.eqb s (String c EmptyString)
  | _ => false
  end.

(** ['c' in v] for a one-character string ['c']. *)
Definition contains (c : ascii) (v : pyval) : result bool :=
  match v with
  | PStr s => Ok (char_in c s)
  | PList l => Ok (existsb (is_str c) l)
  | PDict d => Ok (existsb (fun kv => String.eqb (fst kv) (String c EmptyString)) d)
  | _ => Raise TypeError
  end.

(** The items a [for] loop or a comprehension over [v] visits. *)
Definition iter (v : pyval) : result (list pyval) :=
  match v with
  | PList l => Ok l
  | PDict d => Ok (map (fun kv => PStr (fst kv)) d)
  | PStr s => Ok (map (fun c => PStr (String c EmptyString)) (String.list_ascii_of_string s))
  | _ => Raise TypeError
  end.

End Py.

(** ** Recipients: [load_email_recipients] *)

Module Recipients.

(** [emails.txt] as the function finds it: what [open] followed by
    [json.load] gives, and whether the file can be written. *)
Record emails_file : Type := {
  content : result pyval;
  writable : bool
}.

Definition default_emails : list pyval :=
  [PStr "speakup189@gmail.com"; PStr "ankity1892003@gmail.com"].

(** An address passes both membership tests. *)
Definition well_shaped (address : pyval) : Prop :=
  Py.contains "@"%char address = Ok true /\ Py.contains "."%char address = Ok true.

(** ['@' in email and '.' in email]. *)
Definition valid_email (email : pyval) : result bool :=
  has_at ← Py.contains "@"%char email;
  if has_at : bool then Py.contains "."%char email else Ok false.

(** The comprehension [[email for email in emails if ...]]: an item on
    which the test raises ends the whole comprehension. *)
Fixpoint valid_emails (emails : list pyval) : result (list pyval) :=
  match emails with
  | [] => Ok []
  | email :: rest =>
      keep ← valid_email email;
      kept ← valid_emails rest;
      Ok (if keep : bool then email :: kept else kept)
  end.

(** The body of the [try]. *)
Definition read_emails (file : emails_file) : result (list pyval) :=
  emails ← content file;
  items ← Py.iter emails;
  valid ← valid_emails items;
  _ ← Py.len emails;
  Ok valid.

(** The recipients, and the file as the call leaves it. *)
Definition load_email_recipients (file : emails_file) : list pyval * emails_file :=
  match read_emails file with
  | Ok valid => (valid, file)
  | Raise _ =>
      (default_emails,
       if writable file
       then {| content := Ok (PList default_emails); writable := true |}
       else file)
  end.

End Recipients.

(** ** The fetcher: [fetch_earthquake_data] *)

Module Fetcher.

Inductive url : Type :=
  | USGS_API_URL
  | BACKUP_API_URL.

(** What [requests.get] does for one URL: it raises, or gives a response
    with a status code and the outcome of [response.json()]. *)
Inductive http_reply : Type :=
  | NoReply (e : exn)
  | Reply (status_code : Z) (json : result pyval).

Definition network : Type := url -> http_reply.

(** The value returned ([PNone] is Python's [None]) and the requests made,
    in order. *)
Definition fetch_earthquake_data (net : network) : pyval * list url :=
  match net USGS_API_URL with
  | NoReply _ => (PNone, [USGS_API_URL])
  | Reply status_code json =>
      if Z.eqb status_code 200 then
        match json with
        | Ok data => (data, [USGS_API_URL])
        | Raise _ => (PNone, [USGS_API_URL])
        end
      else
        match net BACKUP_API_URL with
        | NoReply _ => (PNone, [USGS_API_URL; BACKUP_API_URL])
        | Reply backup_code backup_json =>
            if Z.eqb backup_code 200 then
              match backup_json with
              | Ok data => (data, [USGS_API_URL; BACKUP_API_URL])
              | Raise _ => (PNone, [USGS_API_URL; BACKUP_API_URL])
              end
            else (PNone, [USGS_API_URL; BACKUP_API_URL])
        end
  end.

End Fetcher.

(** ** The tier table of [tsunami_dashboard.py] *)

Module Dashboard.

Inductive tier : Type :=
  | VeryLow
  | Low
  | Moderate
  | High
  | VeryHigh.

(** The string the dashboard stores for a tier. *)
Definition tier_label (t : tier) : string :=
  match t with
  | VeryLow => "Very Low"
  | Low => "Low"
  | Moderate => "Moderate"
  | High => "High"
  | VeryHigh => "Very High"
  end.

Definition tier_rank (t : tier) : nat :=
  match t with
  | VeryLow => 0
  | Low => 1
  | Moderate => 2
  | High => 3
  | VeryHigh => 4
  end.

(** [prob < q]. *)
Definition below (prob q : Q) : bool := negb (Qle_bool q prob).

(** The [if]/[elif] chain applied to each probability. *)
Definition risk_level (prob : Q) : tier :=
  if below prob 0.2 then VeryLow
  else if below prob 0.4 then Low
  else if below prob 0.6 then Moderate
  else if below prob 0.8 then High
  else VeryHigh.

(** [predict_tsunami_risk(df)]: [model] stands for preparing the frame and
    reading [predict_proba(...)[:, 1]]. *)
Definition predict_tsunami_risk {row : Type}
    (model : option (list row -> result (list Q))) (df : list row) : list string :=
  match model with
  | None => replicate (length df) "N/A"
  | Some predict_proba =>
      match predict_proba df with
      | Ok probabilities => map (fun prob => tier_label (risk_level prob)) probabilities
      | Raise _ => replicate (length df) "Error"
      end
  end.

End Dashboard.

(** ** [email_alert.py]: scoring, formatting and the cycle *)

(** The values interpolated into the HTML and plain-text templates of
    [format_email_body]; both texts are the fixed template around these
    slots (the footer's generation time is left out). *)
Record email_body : Type := {
  body_risk_level : string;
  body_risk_color : string;
  body_mag : string;
  body_place : string;
  body_event_time : string;
  body_depth : string;
  body_lat : string;
  body_lon : string;
  body_maps_link : string;
  body_probability : string;
  body_reason : string
}.

(** What became of one event of a cycle. *)
Inductive outcome : Type :=
  | TooOld
  | BelowThreshold (probability : Q)
  | Alerted (subject : string) (body : email_body) (success : bool).

(** How [process_earthquakes] returned. *)
Inductive cycle : Type :=
  | NoData
  | NoRecipients
  | Processed (outcomes : list (result outcome)) (alerts_sent : nat).

(** What one cycle finds around it: the two feeds, [emails.txt], and the
    reading of [datetime.now()] taken for the event at each position. *)
Record world : Type := {
  net : Fetcher.network;
  emails : Recipients.emails_file;
  clock : nat -> Q
}.

(** The loop of [main] after a number of iterations: still going, ended
    by Ctrl-C, ended by an exception, or held for good inside the cycle
    after [cycles_done] by a call that never comes back. *)
Inductive run : Type :=
  | Running (cycles_done : nat)
  | StoppedByUser (cycles_done : nat)
  | StoppedByError (cycles_done : nat) (e : exn)
  | Blocked (cycles_done : nat).

(** ** Helpers shared by the dashboard and the monitor *)

Module PyDict.

(** [coords[i] if len(coords) > i else fallback]. *)
Definition item_or (coords : pyval) (i : nat) (fallback : pyval) : result pyval :=
  n ← Py.len coords;
  if Nat.ltb i n then Py.index coords i else Ok fallback.

(** [d[k] = v] on a dict: the binding is replaced in place, or added at
    the end. *)
Fixpoint set_item (k : string) (v : pyval) (d : list (string * pyval))
  : list (string * pyval) :=
  match d with
  | [] => [(k, v)]
  | (k', v') :: d' =>
      if String.eqb k k' then (k, v) :: d' else (k', v') :: set_item k v d'
  end.

(** [s.startswith(p)]. *)
Fixpoint startswith (p s : string) : bool :=
  match p, s with
  | EmptyString, _ => true
  | String a p', String b s' => if Ascii.eqb a b then startswith p' s' else false
  | String _ _, EmptyString => false
  end.

(** [k in names] for a list of strings. *)
Definition mem (k : string) (names : list string) : bool :=
  existsb (String.eqb k) names.

(** [x is None]. *)
Definition is_none (v : pyval) : bool :=
  match v with
  | PNone => true
  | _ => false
  end.

(** Every item of a loop body that may raise, in order; the first
    exception ends the loop. *)
Fixpoint for_each {A B} (f : A -> result B) (l : list A) : result (list B) :=
  match l with
  | [] => Ok []
  | x :: rest =>
      y ← f x;
      ys ← for_each f rest;
      Ok (y :: ys)
  end.

End PyDict.

(** ** [tsunami_dashboard.py]: colours, statistics, fetching, calculator *)

Module DashboardApp.

Definition colors : list (string * string) :=
  [("background", "#f5f7fa"); ("card", "#ffffff"); ("primary", "#4e73df");
   ("secondary", "#858796"); ("success", "#1cc88a"); ("danger", "#e74a3b");
   ("warning", "#f6c23e"); ("info", "#36b9cc"); ("light", "#f8f9fc");
   ("dark", "#5a5c69"); ("text", "#3a3b45"); ("border", "#e3e6f0")].

(** [colors[name]] for a name of the table. *)
Fixpoint color_in (table : list (string * string)) (name : string) : string :=
  match table with
  | [] => ""
  | (k, v) :: rest => if String.eqb name k then v else color_in rest name
  end.

Definition color (name : string) : string := color_in colors name.

Definition get_risk_color (risk_level : string) : string :=
  if String.eqb risk_level "Very Low" then color "info"
  else if String.eqb risk_level "Low" then color "success"
  else if String.eqb risk_level "Moderate" then color "warning"
  else if String.eqb risk_level "High" then color "danger"
  else if String.eqb risk_level "Very High" then "#8b0000"
  else color "secondary".

(** [max(a, b)] and [min(a, b)]: the first argument unless the second
    is strictly beyond it. *)
Definition py_max (a b : Q) : Q := if negb (Qle_bool b a) then b else a.
Definition py_min (a b : Q) : Q := if negb (Qle_bool a b) then b else a.

(** The marker size of [update_all_components]:
    [min(25, max(10, row['magnitude'] * 4))]. *)
Definition marker_size (magnitude : Q) : Q :=
  py_min 25 (py_max 10 (magnitude * 4)).

(** [sum(df['tsunami_risk'].isin(['High', 'Very High']))]. *)
Definition is_high_risk (risk : string) : bool :=
  String.eqb risk "High" || String.eqb risk "Very High".

Definition high_risk_count (risks : list string) : nat :=
  length (filter (fun risk => is_high_risk risk = true) risks).

Section Fetch.

Variable fromtimestamp : Q -> result Q.
Variable strftime : Q -> string.

(** The dict built for one feature of the feed. *)
Definition earthquake_row (feature : pyval) : result (list (string * pyval)) :=
  props ← Py.getitem feature "properties";
  geometry ← Py.getitem feature "geometry";
  coords ← Py.getitem geometry "coordinates";
  id ← Py.getitem feature "id";
  magnitude ← Py.get props "mag" (PNum 0);
  location ← Py.get props "place" (PStr "Unknown");
  time_ms ← Py.get props "time" (PNum 0);
  seconds ← Py.div time_ms 1000;
  time ← fromtimestamp seconds;
  depth ← PyDict.item_or coords 2 (PNum 0);
  latitude ← PyDict.item_or coords 1 (PNum 0);
  longitude ← PyDict.item_or coords 0 (PNum 0);
  sig ← Py.get props "sig" (PNum 0);
  magType ← Py.get props "magType" (PStr "unknown");
  mmi ← Py.get props "mmi" (PNum 0);
  gap ← Py.get props "gap" (PNum 0);
  dmin ← Py.get props "dmin" (PNum 0);
  Ok [("id", id); ("magnitude", magnitude); ("location", location);
      ("time", PStr (strftime time)); ("depth", depth); ("latitude", latitude);
      ("longitude", longitude); ("sig", sig); ("magType", magType); ("mmi", mmi);
      ("gap", gap); ("dmin", dmin); ("tsunami_risk", PStr "N/A")].

(** The body of the [try]: the status code of the reply is not looked at. *)
Definition read_feed (reply : Fetcher.http_reply) : result (list (list (string * pyval))) :=
  match reply with
  | Fetcher.NoReply e => Raise e
  | Fetcher.Reply _ json =>
      data ← json;
      found ← Py.getitem data "features";
      features ← Py.iter found;
      PyDict.for_each earthquake_row features
  end.

(** The rows of the returned frame; the empty frame is the empty list. *)
Definition fetch_recent_earthquakes (reply : Fetcher.http_reply)
  : list (list (string * pyval)) :=
  match read_feed reply with
  | Ok earthquakes => earthquakes
  | Raise _ => []
  end.

End Fetch.

(** What the calculator callback puts in the [risk-output] element. *)
Inductive risk_output : Type :=
  | NoOutput
  | FillInFields
  | Prediction (risk : string) (risk_color : string)
  | CalculationError.

(** The one-row frame built from the form. *)
Definition input_row (magnitude depth latitude longitude magtype sig : pyval)
  : list (string * pyval) :=
  [("magnitude", magnitude); ("depth", depth); ("latitude", latitude);
   ("longitude", longitude); ("magType", magtype); ("sig", sig);
   ("gap", PNum 50); ("dmin", PNum 1); ("mmi", PNum 5)].

Definition calculate_tsunami_risk
    (model : option (list (list (string * pyval)) -> result (list Q)))
    (n_clicks magnitude depth latitude longitude magtype sig : pyval) : risk_output :=
  if PyDict.is_none n_clicks || Py.eq_num n_clicks 0 then NoOutput
  else if existsb PyDict.is_none [magnitude; depth; latitude; longitude; magtype; sig]
  then FillInFields
  else
    match Dashboard.predict_tsunami_risk model
            [input_row magnitude depth latitude longitude magtype sig] with
    | risk :: _ => Prediction risk (get_risk_color risk)
    | [] => CalculationError
    end.

End DashboardApp.

(** ** [tsunami_monitor.py]: the feature frame and the report *)

Module Monitor.

(** The [result] dict of [process_earthquake]. *)
Record report : Type := {
  id : pyval;
  time : string;
  title : pyval;
  magnitude : pyval;
  depth : pyval;
  latitude : pyval;
  longitude : pyval;
  tsunami_predicted : bool;
  tsunami_probability : Q;
  features_used : list (string * pyval)
}.

(** [fetch_recent_earthquakes]: the [features] entry of a 200 reply, the
    empty list otherwise. *)
Definition fetch_recent_earthquakes (reply : Fetcher.http_reply) : pyval :=
  match reply with
  | Fetcher.NoReply _ => PList []
  | Fetcher.Reply status_code json =>
      if Z.eqb status_code 200 then
        match (data ← json; Py.getitem data "features") with
        | Ok found => found
        | Raise _ => PList []
        end
      else PList []
  end.

Section Code.

(** [str(v)] of a value that is not a string, the feature list, the
    model seen through [predict(df)[0]] and [predict_proba(df)[0][1]], and
    the clock conversion. *)
Variable py_str : pyval -> string.
Variable features : list string.
Variable model : list (string * pyval) -> result (bool * Q).
Variable fromtimestamp : Q -> result Q.
Variable strftime : Q -> string.

(** [f'{v}']: a string is inserted as it is. *)
Definition fstr (v : pyval) : string :=
  match v with
  | PStr s => s
  | _ => py_str v
  end.

(** The indicator a [magType_] column must carry for the magnitude type
    of [props]: 1 on the column of that type, 0 on the others. *)
Definition indicator (props : list (string * pyval)) (column : string) : Q :=
  if String.eqb column
       ("magType_" ++ fstr (default (PStr "") (Py.assoc "magType" props)))
  then 1%Q else 0%Q.

(** The loop that sets every [magType_] column of the feature list to 0. *)
Definition clear_mag_types (d : list (string * pyval)) : list (string * pyval) :=
  fold_left
    (fun d col =>
       if PyDict.startswith "magType_" col then PyDict.set_item col (PNum 0) d else d)
    features d.

(** The block guarded by [any(col.startswith('magType_') ...)]. *)
Definition one_hot (props : pyval) (d : list (string * pyval))
  : result (list (string * pyval)) :=
  if existsb (PyDict.startswith "magType_") features then
    mag_type ← Py.get props "magType" (PStr "");
    let d := clear_mag_types d in
    let mag_type_col := "magType_" ++ fstr mag_type in
    Ok (if PyDict.mem mag_type_col features
        then PyDict.set_item mag_type_col (PNum 1) d
        else d)
  else Ok d.

(** [earthquake_features], as it stands when the frame is built. *)
Definition earthquake_features (earthquake : pyval) : result (list (string * pyval)) :=
  properties ← Py.getitem earthquake "properties";
  geometry ← Py.getitem earthquake "geometry";
  magnitude ← Py.get properties "mag" (PNum 0);
  coords ← Py.getitem geometry "coordinates";
  depth ← PyDict.item_or coords 2 (PNum 0);
  latitude ← PyDict.item_or coords 1 (PNum 0);
  longitude ← PyDict.item_or coords 0 (PNum 0);
  sig ← Py.get properties "sig" (PNum 0);
  gap ← Py.get properties "gap" (PNum 0);
  dmin ← Py.get properties "dmin" (PNum 0);
  mmi ← Py.get properties "mmi" (PNum 0);
  one_hot properties
    [("magnitude", magnitude); ("depth", depth); ("latitude", latitude);
     ("longitude", longitude); ("sig", sig); ("gap", gap); ("dmin", dmin);
     ("mmi", mmi)].

(** [df[features]] after every absent feature got a column of [0]. *)
Definition select (d : list (string * pyval)) : list (string * pyval) :=
  map (fun f => (f, default (PNum 0) (Py.assoc f d))) features.

(** [prediction_df]. *)
Definition prediction_df (earthquake : pyval) : result (list (string * pyval)) :=
  d ← earthquake_features earthquake;
  Ok (select d).

(** The body of the [try] of [process_earthquake]. *)
Definition build_report (earthquake : pyval) : result report :=
  d ← earthquake_features earthquake;
  '(prediction, probability) ← model (select d);
  properties ← Py.getitem earthquake "properties";
  geometry ← Py.getitem earthquake "geometry";
  id ← Py.getitem earthquake "id";
  time_ms ← Py.getitem properties "time";
  seconds ← Py.div time_ms 1000;
  time ← fromtimestamp seconds;
  title ← Py.get properties "title" (PStr "Unknown Earthquake");
  magnitude ← Py.get properties "mag" (PNum 0);
  coords ← Py.getitem geometry "coordinates";
  depth ← PyDict.item_or coords 2 (PNum 0);
  latitude ← PyDict.item_or coords 1 (PNum 0);
  longitude ← PyDict.item_or coords 0 (PNum 0);
  Ok {| id := id; time := strftime time; title := title; magnitude := magnitude;
        depth := depth; latitude := latitude; longitude := longitude;
        tsunami_predicted := prediction; tsunami_probability := probability;
        features_used := d |}.

(** [None] when anything in the body raised. *)
Definition process_earthquake (earthquake : pyval) : option report :=
  try_opt (build_report earthquake).

End Code.

End Monitor.

(** ** [tsunami_system.py]: [check_files] *)

Module System.

(** The files the launcher looks at: whether the model file exists, and
    [emails.txt] (absent, or what [json.load] makes of it), with whether
    it can be created. *)
Record disk : Type := {
  model_pkl : bool;
  emails_txt : option (result pyval);
  emails_writable : bool
}.

(** The value returned and the disk afterwards; [Raise] when creating
    [emails.txt] fails. *)
Definition check_files (d : disk) : result (bool * disk) :=
  if negb (model_pkl d) then Ok (false, d)
  else
    match emails_txt d with
    | Some _ => Ok (true, d)
    | None =>
        if emails_writable d then
          Ok (true, {| model_pkl := model_pkl d;
                       emails_txt := Some (Ok (PList Recipients.default_emails));
                       emails_writable := emails_writable d |})
        else Raise IOError
    end.

(** [emails.txt] as [load_email_recipients] of the alert process finds it. *)
Definition emails_file_of (d : disk) : Recipients.emails_file :=
  {| Recipients.content :=
       match emails_txt d with
       | Some parsed => parsed
       | None => Raise IOError
       end;
     Recipients.writable := emails_writable d |}.

End System.

(** ** Vocabulary of the further statements *)

(** A value on which ['@' in v] raises: it is neither a string nor a
    container. *)
Definition not_a_container (v : pyval) : Prop :=
  match v with
  | PNone | PBool _ | PNum _ => True
  | _ => False
  end.

(** The keys of the [data] dict of [prepare_prediction_data]. *)
Definition base_features : list string :=
  ["magnitude"; "depth"; "latitude"; "longitude"; "sig"; "gap"; "dmin"; "mmi"].

(** The risk level and colour the body shows for a subject label. *)
Definition body_style_of (label : string) : string * string :=
  if String.eqb label "HIGH" then ("High", "#e74a3b")
  else if String.eqb label "MEDIUM" then ("Medium", "#f6c23e")
  else ("Low", "#1cc88a").

(** The decoded body of a reply with status 200. *)
Definition answers_200 (reply : Fetcher.http_reply) (data : pyval) : Prop :=
  reply = Fetcher.Reply 200 (Ok data).

(** A reply the fetcher cannot use: no reply, another status, or a body
    that does not decode. *)
Definition unusable (reply : Fetcher.http_reply) : Prop :=
  match reply with
  | Fetcher.NoReply _ => True
  | Fetcher.Reply status_code json =>
      status_code <> 200%Z \/ exists e, json = Raise e
  end.

(** ** Vocabulary of the statements *)

(** An event whose [properties] is the dict [props]. *)
Definition has_properties (earthquake : pyval) (props : list (string * pyval)) : Prop :=
  Py.getitem earthquake "properties" = Ok (PDict props).

(** The official flag of [props] is not [1]: absent, or a value that does
    not compare equal to [1]. *)
Definition flag_not_set (props : list (string * pyval)) : Prop :=
  forall flag, Py.assoc "tsunami" props = Some flag -> Py.eq_num flag 1 = false.

(** The subject carries [label] between its brackets. *)
Definition has_label (subject label : string) : Prop :=
  exists rest, subject = "TSUNAMI ALERT [" ++ label ++ "]: M" ++ rest.

(** What the fetcher handed to the cycle is falsy, or carries a list under
    [features]. *)
Definition payload_has_feature_list (w : world) : Prop :=
  let earthquake_data := (Fetcher.fetch_earthquake_data (net w)).1 in
  Py.truthy earthquake_data = false \/
  exists earthquakes, Py.getitem earthquake_data "features" = Ok (PList earthquakes).

(** ** Sample inputs *)

Module Sample.

(** A feature of the feed: identifier, properties, and a point. *)
Definition quake (id : string) (mag : Q) (tsunami : Q) (time_ms : Q)
    (coordinates : list pyval) : pyval :=
  PDict [("type", PStr "Feature");
         ("properties",
          PDict [("mag", PNum mag); ("place", PStr "Test");
                 ("time", PNum time_ms); ("tsunami", PNum tsunami)]);
         ("geometry",
          PDict [("type", PStr "Point"); ("coordinates", PList coordinates)]);
         ("id", PStr id)].

Definition props_of (mag tsunami time_ms : Q) : list (string * pyval) :=
  [("mag", PNum mag); ("place", PStr "Test");
   ("time", PNum time_ms); ("tsunami", PNum tsunami)].

Definition point : list pyval := [PNum 142.4; PNum 38.3; PNum 10].
Definition point_without_depth : list pyval := [PNum 142.4; PNum 38.3].

Definition t0_ms : Q := 1700000000000.
Definition t0 : Q := 1700000000.

Definition official : pyval := quake "us7000test" 7.8 1 t0_ms point.
Definition major : pyval := quake "us7000majr" 7.6 0 t0_ms point.
Definition strong_no_depth : pyval := quake "us7000nodp" 6.8 0 t0_ms point_without_depth.
Definition strong_shallow : pyval := quake "us7000shal" 6.8 0 t0_ms point.
Definition unscored : pyval := quake "us7000gate" 5.0 0 t0_ms point.

(** Stand-ins for the interpreter's formatting and clock conversion. *)
Definition py_str (v : pyval) : string :=
  match v with
  | PStr s => s
  | _ => "#"
  end.
Definition fmt2f (_ : Q) : string := "0.40".
Definition fromtimestamp (seconds : Q) : result Q := Ok seconds.
Definition strftime (_ : Q) : string := "2023-11-14 22:13:20 UTC".
Definition smtp (_ : list pyval) (_ : string) (_ : email_body) : bool := true.
Definition smtp_ends (_ : list pyval) (_ : string) (_ : email_body) : bool := true.

(** [time.sleep] as CPython has it on a 64-bit Linux: a negative length
    is a [ValueError], a length beyond 2^63 nanoseconds an
    [OverflowError]. *)
Definition sleep (seconds : Z) : result unit :=
  if Z.ltb seconds 0 then Raise ValueError
  else if Z.ltb 9223372036 seconds then Raise OverflowError
  else Ok tt.

(** A model that scores every event at exactly 0.4. *)
Definition model_at_gate : option (list (string * pyval) -> result Q) :=
  Some (fun _ => Ok 0.4%Q).

Definition features : list string :=
  ["magnitude"; "depth"; "latitude"; "longitude"; "sig"; "gap"; "dmin"; "mmi"].

Definition feed (earthquakes : list pyval) : pyval :=
  PDict [("type", PStr "FeatureCollection"); ("features", PList earthquakes)].

Definition primary_up (payload : pyval) : Fetcher.network :=
  fun u =>
    match u with
    | Fetcher.USGS_API_URL => Fetcher.Reply 200 (Ok payload)
    | Fetcher.BACKUP_API_URL => Fetcher.NoReply IOError
    end.

(** The primary request fails in transport; the backup would answer. *)
Definition primary_down_backup_up : Fetcher.network :=
  fun u =>
    match u with
    | Fetcher.USGS_API_URL => Fetcher.NoReply IOError
    | Fetcher.BACKUP_API_URL => Fetcher.Reply 200 (Ok (feed [official]))
    end.

Definition emails_txt : Recipients.emails_file :=
  {| Recipients.content := Ok (PList [PStr "ops@example.org"; PStr "nobody"]);
     Recipients.writable := true |}.

(** A cycle that finds [payload] on the primary feed and reads [now] on
    the clock. *)
Definition world_at (now : Q) (payload : pyval) : world :=
  {| net := primary_up payload; emails := emails_txt; clock := fun _ => now |}.

(** A decoded answer without [features]. *)
Definition error_document : pyval :=
  PDict [("status", PNum 503); ("message", PStr "Service Unavailable")].

End Sample.

(** Further sample inputs. *)
Module Cases.

(** A feature without [geometry], of magnitude 6.2. *)
Definition no_geometry : pyval :=
  PDict [("type", PStr "Feature");
         ("properties", PDict (Sample.props_of 6.2 0 Sample.t0_ms));
         ("id", PStr "us7000nogm")].

(** A feature without [id]. *)
Definition no_id : pyval :=
  PDict [("type", PStr "Feature");
         ("properties", PDict (Sample.props_of 5.1 0 Sample.t0_ms));
         ("geometry",
          PDict [("type", PStr "Point"); ("coordinates", PList Sample.point)])].

(** A feature with a magnitude type and a title, as the monitor reads
    them. *)
Definition typed_props : list (string * pyval) :=
  [("mag", PNum 6.1); ("magType", PStr "mw"); ("time", PNum Sample.t0_ms);
   ("title", PStr "M 6.1 - Test")].

Definition typed : pyval :=
  PDict [("type", PStr "Feature");
         ("properties", PDict typed_props);
         ("geometry",
          PDict [("type", PStr "Point"); ("coordinates", PList Sample.point)]);
         ("id", PStr "us7000type")].

Definition features_with_extra : list string := ["magnitude"; "depth"; "nst"].

Definition one_hot_features : list string :=
  ["magnitude"; "depth"; "magType_mb"; "magType_mw"; "magType_mww"].

Definition monitor_model (_ : list (string * pyval)) : result (bool * Q) :=
  Ok (true, 0.83%Q).

Definition emails_with_number : Recipients.emails_file :=
  {| Recipients.content := Ok (PList [PStr "ops@example.org"; PNum 42]);
     Recipients.writable := true |}.

Definition invalid_addresses : list pyval := [PStr "nobody"; PStr "ops@example"].

Definition emails_all_invalid : Recipients.emails_file :=
  {| Recipients.content := Ok (PList invalid_addresses);
     Recipients.writable := true |}.

Definition emails_missing : Recipients.emails_file :=
  {| Recipients.content := Raise IOError; Recipients.writable := true |}.

(** The primary answers 500, the backup does not answer. *)
Definition both_down : Fetcher.network :=
  fun u =>
    match u with
    | Fetcher.USGS_API_URL => Fetcher.Reply 500 (Raise ValueError)
    | Fetcher.BACKUP_API_URL => Fetcher.NoReply IOError
    end.

(** The primary answers 503, the backup answers with a feed. *)
Definition backup_up : Fetcher.network :=
  fun u =>
    match u with
    | Fetcher.USGS_API_URL => Fetcher.Reply 503 (Raise ValueError)
    | Fetcher.BACKUP_API_URL => Fetcher.Reply 200 (Ok (Sample.feed [Sample.official]))
    end.

Definition disk_without_emails : System.disk :=
  {| System.model_pkl := true; System.emails_txt := None;
     System.emails_writable := true |}.

(** Cycles: two good ones, then one whose payload has no [features]. *)
Definition worlds_failing_at_2 (i : nat) : world :=
  if Nat.ltb i 2
  then Sample.world_at (Sample.t0 + 60) (Sample.feed [Sample.official])
  else Sample.world_at (Sample.t0 + 60) Sample.error_document.

End Cases.

Section EmailAlert.

(** Formatting done by the interpreter: [str(v)] inside an f-string and
    the [:.2f] format of a float. *)
Variable py_str : pyval -> string.
Variable fmt2f : Q -> string.

(** Module state read by the scorer: the unpickled model ([None] when
    loading failed), seen through [model.predict_proba(df)[0, 1]], and the
    feature list. *)
Variable model : option (list (string * pyval) -> result Q).
Variable features : list string.

(** [coords[i] if len(coords) > i else 0]. *)
Definition coord_or_zero (coords : pyval) (i : nat) : result pyval :=
  n ← Py.len coords;
  if Nat.ltb i n then Py.index coords i else Ok (PNum 0).

(** The [data] dict built by [prepare_prediction_data]. *)
Definition prediction_row (earthquake : pyval) : result (list (string * pyval)) :=
  props ← Py.getitem earthquake "properties";
  geometry ← Py.getitem earthquake "geometry";
  coords ← Py.getitem geometry "coordinates";
  magnitude ← Py.get props "mag" (PNum 0);
  depth ← coord_or_zero coords 2;
  latitude ← coord_or_zero coords 1;
  longitude ← coord_or_zero coords 0;
  sig ← Py.get props "sig" (PNum 0);
  gap ← Py.get props "gap" (PNum 0);
  dmin ← Py.get props "dmin" (PNum 0);
  mmi ← Py.get props "mmi" (PNum 0);
  Ok [("magnitude", magnitude); ("depth", depth); ("latitude", latitude);
      ("longitude", longitude); ("sig", sig); ("gap", gap); ("dmin", dmin);
      ("mmi", mmi)].

(** [df[features]] after every absent feature got a column of [0].  A
    failure inside pandas falls through to the heuristic exactly as a
    failing [predict_proba] does, and is covered by it. *)
Definition select_features (row : list (string * pyval)) : list (string * pyval) :=
  map (fun f => (f, default (PNum 0) (Py.assoc f row))) features.

Definition prepare_prediction_data (earthquake : pyval) : option (list (string * pyval)) :=
  try_opt (row ← prediction_row earthquake; Ok (select_features row)).

(** The model branch: the assessment it returns, or nothing when the model
    is missing, the data could not be prepared, or the call raised. *)
Definition model_prediction (earthquake : pyval) : option (Q * string) :=
  match model with
  | None => None
  | Some predict_proba =>
      match prepare_prediction_data earthquake with
      | None => None
      | Some prediction_data =>
          match predict_proba prediction_data with
          | Ok probability =>
              Some (probability,
                    "Model prediction: " ++ fmt2f probability ++ " probability of tsunami")
          | Raise _ => None
          end
      end
  end.

(** The fallback after the model branch. *)
Definition heuristic (earthquake magnitude : pyval) : result (Q * string) :=
  large ← Py.ge magnitude 6.5;
  shallow ←
    (if large : bool then
       geometry ← Py.getitem earthquake "geometry";
       coords ← Py.getitem geometry "coordinates";
       depth ← Py.index coords 2;
       Py.lt depth 50
     else Ok false);
  if shallow : bool then Ok (0.7%Q, "Shallow large earthquake - moderate tsunami risk")
  else
    moderate ← Py.ge magnitude 6.0;
    if moderate : bool then Ok (0.3%Q, "Moderate earthquake - low tsunami risk")
    else Ok (0.1%Q, "Low magnitude - very low tsunami risk").

Definition predict_tsunami_risk (earthquake : pyval) : result (Q * string) :=
  props ← Py.getitem earthquake "properties";
  flag ← Py.get props "tsunami" PNone;
  if Py.eq_num flag 1 then Ok (1.0%Q, "Official tsunami alert already issued")
  else
    props ← Py.getitem earthquake "properties";
    magnitude ← Py.get props "mag" (PNum 0);
    very_high ← Py.ge magnitude 7.5;
    if very_high : bool then
      Ok (0.9%Q, "Very high magnitude (" ++ py_str magnitude ++ ") - high tsunami risk")
    else
      match model_prediction earthquake with
      | Some assessment => Ok assessment
      | None => heuristic earthquake magnitude
      end.

(** *** Formatting *)

(** The label chosen by [format_email_subject]. *)
Definition subject_risk_level (probability : Q) : string :=
  if Qle_bool 0.7 probability then "HIGH"
  else if Qle_bool 0.4 probability then "MEDIUM"
  else "LOW".

Definition format_email_subject (earthquake : pyval) (probability : Q) : result string :=
  props ← Py.getitem earthquake "properties";
  magnitude ← Py.get props "mag" (PNum 0);
  props ← Py.getitem earthquake "properties";
  place ← Py.get props "place" (PStr "Unknown location");
  Ok ("TSUNAMI ALERT [" ++ subject_risk_level probability ++ "]: M"
        ++ py_str magnitude ++ " Earthquake near " ++ py_str place).

(** [datetime.datetime.fromtimestamp], in seconds on the clock that
    [datetime.now()] reads, and the [strftime] rendering of a time. *)
Variable fromtimestamp : Q -> result Q.
Variable strftime : Q -> string.

Definition format_email_body (earthquake : pyval) (probability : Q) (reason : string)
  : result email_body :=
  props ← Py.getitem earthquake "properties";
  geometry ← Py.getitem earthquake "geometry";
  coords ← Py.getitem geometry "coordinates";
  time_ms ← Py.get props "time" (PNum 0);
  seconds ← Py.div time_ms 1000;
  event_time ← fromtimestamp seconds;
  lat ← coord_or_zero coords 1;
  lon ← coord_or_zero coords 0;
  let maps_link := "https://www.google.com/maps?q=" ++ py_str lat ++ "," ++ py_str lon in
  let '(risk_level, risk_color) :=
    if Qle_bool 0.7 probability then ("High", "#e74a3b")
    else if Qle_bool 0.4 probability then ("Medium", "#f6c23e")
    else ("Low", "#1cc88a") in
  mag ← Py.get props "mag" (PStr "N/A");
  place ← Py.get props "place" (PStr "Unknown");
  n ← Py.len coords;
  depth ← (if Nat.ltb 2 n then Py.index coords 2 else Ok (PStr "N/A"));
  Ok {| body_risk_level := risk_level;
        body_risk_color := risk_color;
        body_mag := py_str mag;
        body_place := py_str place;
        body_event_time := strftime event_time;
        body_depth := py_str depth;
        body_lat := py_str lat;
        body_lon := py_str lon;
        body_maps_link := maps_link;
        body_probability := fmt2f probability;
        body_reason := reason |}.

(** *** Dispatch *)

(** Module configuration: the two strings [os.getenv] returned at import,
    empty when the variable is not set.  The SMTP session of
    [send_email_alert]: [true] when [sendmail] completed, [false] when any
    step raised. *)
Variable EMAIL_USERNAME EMAIL_PASSWORD : string.
Variable smtp : list pyval -> string -> email_body -> bool.

Definition send_email_alert (recipients : list pyval) (subject : string)
    (body : email_body) : bool :=
  if String.eqb EMAIL_USERNAME "" || String.eqb EMAIL_PASSWORD "" then false
  else smtp recipients subject body.

(** *** One event of the loop in [process_earthquakes] *)

(** [event_time] of the loop body. *)
Definition event_time (earthquake : pyval) : result Q :=
  props ← Py.getitem earthquake "properties";
  time_ms ← Py.get props "time" (PNum 0);
  seconds ← Py.div time_ms 1000;
  fromtimestamp seconds.

(** The block guarded by [if probability >= 0.4]. *)
Definition send_alert (recipients : list pyval) (earthquake : pyval)
    (probability : Q) (reason : string) : result outcome :=
  subject ← format_email_subject earthquake probability;
  body ← format_email_body earthquake probability reason;
  Ok (Alerted subject body (send_email_alert recipients subject body)).

(** The body of the [try] for one event; [Raise] is what the [except]
    clause catches and prints. *)
Definition process_event (now : Q) (recipients : list pyval) (earthquake : pyval)
  : result outcome :=
  event_time ← event_time earthquake;
  if negb (Qle_bool (now - event_time) 1800) then Ok TooOld
  else
    '(probability, reason) ← predict_tsunami_risk earthquake;
    if Qle_bool 0.4 probability
    then send_alert recipients earthquake probability reason
    else Ok (BelowThreshold probability).

(** *** The cycle and the loop *)

Definition alert_sent (o : result outcome) : bool :=
  match o with
  | Ok (Alerted _ _ success) => success
  | _ => false
  end.

(** [Raise] is an exception that leaves [process_earthquakes]. *)
Definition process_earthquakes (w : world) : result cycle :=
  let earthquake_data := (Fetcher.fetch_earthquake_data (net w)).1 in
  if negb (Py.truthy earthquake_data) then Ok NoData
  else
    found ← Py.getitem earthquake_data "features";
    _ ← Py.len found;
    let recipients := (Recipients.load_email_recipients (emails w)).1 in
    if Nat.eqb (length recipients) 0 then Ok NoRecipients
    else
      found ← Py.getitem earthquake_data "features";
      earthquakes ← Py.iter found;
      let outcomes :=
        imap (fun i earthquake => process_event (clock w i) recipients earthquake)
             earthquakes in
      Ok (Processed outcomes (length (filter (fun o => alert_sent o = true) outcomes))).

(** [smtplib.SMTP] is opened without a timeout: [smtp_ends] tells
    whether the session for a message comes to an end at all, with the
    success or failure [smtp] reports.  No session is opened when the
    credentials are empty. *)
Variable smtp_ends : list pyval -> string -> email_body -> bool.

Definition session_hangs (recipients : list pyval) (o : result outcome) : bool :=
  match o with
  | Ok (Alerted subject body _) =>
      negb (String.eqb EMAIL_USERNAME "" || String.eqb EMAIL_PASSWORD "")
      && negb (smtp_ends recipients subject body)
  | _ => false
  end.

(** The cycle never comes back: one of the alerts it sends opens a
    session that does not end. *)
Definition cycle_hangs (w : world) : bool :=
  match process_earthquakes w with
  | Ok (Processed outcomes _) =>
      existsb (session_hangs (Recipients.load_email_recipients (emails w)).1) outcomes
  | _ => false
  end.

(** [time.sleep], the interpreter's: it returns, or raises on a length it
    does not accept ([ValueError] on a negative one, [OverflowError] or
    [OSError] on one too large for the platform).  [check_interval] is
    the length [main] computed, in seconds. *)
Variable sleep : Z -> result unit.
Variable check_interval : Z.

(** The [while True] of [main], run for at most [fuel] iterations from
    iteration [i]: [worlds i] is what cycle [i] finds, [interrupt i] tells
    whether Ctrl-C arrives during iteration [i]. *)
Fixpoint main_loop (worlds : nat -> world) (interrupt : nat -> bool)
    (i fuel : nat) : run :=
  match fuel with
  | O => Running i
  | S fuel' =>
      if interrupt i then StoppedByUser i
      else if cycle_hangs (worlds i) then Blocked i
      else
        match process_earthquakes (worlds i) with
        | Raise e => StoppedByError i e
        | Ok _ =>
            match sleep check_interval with
            | Raise e => StoppedByError (S i) e
            | Ok _ => main_loop worlds interrupt (S i) fuel'
            end
        end
  end.

Definition main (worlds : nat -> world) (interrupt : nat -> bool) (fuel : nat) : run :=
  main_loop worlds interrupt 0 fuel.

(** A cycle returns, rather than raising. *)
Definition cycle_returns (w : world) : Prop :=
  exists c, process_earthquakes w = Ok c.

(** ** Properties of the scorer *)

Lemma bind_Ok {A B} (a : A) (f : A -> result B) : (Ok a ≫= f) = f a.
Proof. reflexivity. Qed.

Lemma bind_Raise {A B} (e : exn) (f : A -> result B) : (Raise e ≫= f) = Raise e.
Proof. reflexivity. Qed.

Lemma ge_num v m q : Py.num v = Some m -> Py.ge v q = Ok (Qle_bool q m).
Proof. unfold Py.ge. now intros ->. Qed.

Lemma lt_num v m q : Py.num v = Some m -> Py.lt v q = Ok (negb (Qle_bool q m)).
Proof. unfold Py.lt. now intros ->. Qed.

Lemma get_present props k d v :
  Py.assoc k props = Some v -> Py.get (PDict props) k d = Ok v.
Proof. unfold Py.get. now intros ->. Qed.

Lemma get_absent props k d :
  Py.assoc k props = None -> Py.get (PDict props) k d = Ok d.
Proof. unfold Py.get. now intros ->. Qed.

Lemma Qle_bool_true q m : (q <= m)%Q -> Qle_bool q m = true.
Proof. apply Qle_bool_iff. Qed.

Lemma Qle_bool_false q m : (m < q)%Q -> Qle_bool q m = false.
Proof.
  intros Hlt. destruct (Qle_bool q m) eqn:E; [|reflexivity].
  apply Qle_bool_iff in E. lra.
Qed.

Lemma flag_test_false props :
  flag_not_set props ->
  exists flag, Py.get (PDict props) "tsunami" PNone = Ok flag /\ Py.eq_num flag 1 = false.
Proof.
  intros Hflag. unfold Py.get. destruct (Py.assoc "tsunami" props) as [flag|] eqn:E.
  - exists flag. split; [reflexivity | now apply Hflag].
  - exists PNone. split; reflexivity.
Qed.

(** The scorer past both overrides: what is left is the model branch and
    the heuristic. *)
Lemma predict_below_overrides earthquake props mag m :
  has_properties earthquake props ->
  flag_not_set props ->
  Py.get (PDict props) "mag" (PNum 0) = Ok mag ->
  Py.num mag = Some m ->
  (m < 7.5)%Q ->
  predict_tsunami_risk earthquake =
    match model_prediction earthquake with
    | Some assessment => Ok assessment
    | None => heuristic earthquake mag
    end.
Proof.
  intros Hprops Hflag Hmag Hnum Hlt.
  destruct (flag_test_false props Hflag) as (flag & Hget & Hne).
  unfold predict_tsunami_risk. rewrite Hprops, !bind_Ok, Hget, bind_Ok, Hne.
  cbv iota. rewrite Hprops, bind_Ok, Hmag, bind_Ok, (ge_num _ _ _ Hnum), bind_Ok.
  now rewrite Qle_bool_false.
Qed.

(** C1. An event whose official tsunami flag equals 1 is scored 1.0 with
    the official-alert reason, whatever its magnitude, its geometry, the
    model and the feature list: the flag is tested before every other
    rule. *)
Theorem official_flag_first earthquake props flag q :
  has_properties earthquake props ->
  Py.assoc "tsunami" props = Some flag ->
  Py.num flag = Some q ->
  (q == 1)%Q ->
  predict_tsunami_risk earthquake = Ok (1.0%Q, "Official tsunami alert already issued").
Proof.
  intros Hprops Hflag Hnum Hq.
  unfold predict_tsunami_risk. rewrite Hprops, bind_Ok.
  rewrite (get_present _ _ _ _ Hflag), bind_Ok.
  unfold Py.eq_num. rewrite Hnum.
  apply Qeq_bool_iff in Hq. now rewrite Hq.
Qed.

(** C2. An event whose official flag is not 1 and whose magnitude is at
    least 7.5 is scored 0.9 with the very-high-magnitude reason, for every
    model, loaded or not. *)
Theorem magnitude_override earthquake props mag m :
  has_properties earthquake props ->
  flag_not_set props ->
  Py.get (PDict props) "mag" (PNum 0) = Ok mag ->
  Py.num mag = Some m ->
  (7.5 <= m)%Q ->
  predict_tsunami_risk earthquake =
    Ok (0.9%Q, "Very high magnitude (" ++ py_str mag ++ ") - high tsunami risk").
Proof.
  intros Hprops Hflag Hmag Hnum Hge.
  destruct (flag_test_false props Hflag) as (flag & Hget & Hne).
  unfold predict_tsunami_risk. rewrite Hprops, !bind_Ok, Hget, bind_Ok, Hne.
  cbv iota. rewrite Hprops, bind_Ok, Hmag, bind_Ok, (ge_num _ _ _ Hnum), bind_Ok.
  now rewrite Qle_bool_true.
Qed.

(** The heuristic where it has a depth to read: the three rows of its
    table. *)
Lemma heuristic_with_depth earthquake props mag m geometry cs depth d :
  has_properties earthquake props ->
  flag_not_set props ->
  Py.get (PDict props) "mag" (PNum 0) = Ok mag ->
  Py.num mag = Some m ->
  (m < 7.5)%Q ->
  model_prediction earthquake = None ->
  Py.getitem earthquake "geometry" = Ok geometry ->
  Py.getitem geometry "coordinates" = Ok (PList cs) ->
  cs !! 2 = Some depth ->
  Py.num depth = Some d ->
  ((6.5 <= m)%Q -> (d < 50)%Q ->
     predict_tsunami_risk earthquake =
       Ok (0.7%Q, "Shallow large earthquake - moderate tsunami risk")) /\
  ((6.0 <= m)%Q -> (m < 6.5 \/ 50 <= d)%Q ->
     predict_tsunami_risk earthquake =
       Ok (0.3%Q, "Moderate earthquake - low tsunami risk")) /\
  ((m < 6.0)%Q ->
     predict_tsunami_risk earthquake =
       Ok (0.1%Q, "Low magnitude - very low tsunami risk")).
Proof.
  intros Hprops Hflag Hmag Hnum Hlt Hmodel Hgeo Hcoords Hdepth Hd.
  rewrite (predict_below_overrides _ _ _ _ Hprops Hflag Hmag Hnum Hlt), Hmodel.
  unfold heuristic. rewrite (ge_num mag m 6.5 Hnum), (ge_num mag m 6.0 Hnum).
  assert (Hread : (geometry ← Py.getitem earthquake "geometry";
                   coords ← Py.getitem geometry "coordinates";
                   depth ← Py.index coords 2; Py.lt depth 50)
                  = Ok (negb (Qle_bool 50 d))).
  { rewrite Hgeo, bind_Ok, Hcoords, bind_Ok. unfold Py.index. rewrite Hdepth, bind_Ok.
    now apply lt_num. }
  rewrite Hread. clear Hread.
  repeat split.
  - intros Hm Hdlt.
    now rewrite (Qle_bool_true _ _ Hm), (Qle_bool_false 50 d Hdlt).
  - intros Hm [Hsmall | Hdeep].
    + now rewrite (Qle_bool_false _ _ Hsmall), (Qle_bool_true _ _ Hm).
    + rewrite (Qle_bool_true _ _ Hdeep), (Qle_bool_true _ _ Hm).
      now destruct (Qle_bool 6.5 m).
  - intros Hm. rewrite (Qle_bool_false 6.5 m) by lra.
    now rewrite (Qle_bool_false _ _ Hm).
Qed.

(** Below magnitude 6.5 the heuristic never reads the coordinates. *)
Lemma heuristic_small_magnitude earthquake props mag m :
  has_properties earthquake props ->
  flag_not_set props ->
  Py.get (PDict props) "mag" (PNum 0) = Ok mag ->
  Py.num mag = Some m ->
  (m < 6.5)%Q ->
  model_prediction earthquake = None ->
  predict_tsunami_risk earthquake =
    if Qle_bool 6.0 m
    then Ok (0.3%Q, "Moderate earthquake - low tsunami risk")
    else Ok (0.1%Q, "Low magnitude - very low tsunami risk").
Proof.
  intros Hprops Hflag Hmag Hnum Hlt Hmodel.
  rewrite (predict_below_overrides _ _ _ _ Hprops Hflag Hmag Hnum) by lra.
  rewrite Hmodel. unfold heuristic.
  rewrite (ge_num mag m 6.5 Hnum), (ge_num mag m 6.0 Hnum), (Qle_bool_false _ _ Hlt).
  reflexivity.
Qed.

Lemma coord_or_zero_short cs i :
  length cs <= i -> coord_or_zero (PList cs) i = Ok (PNum 0).
Proof.
  intros Hlen. unfold coord_or_zero. cbn [Py.len]. rewrite bind_Ok.
  destruct (Nat.ltb_spec i (length cs)); [lia | reflexivity].
Qed.

Lemma coord_or_zero_list cs i : exists v, coord_or_zero (PList cs) i = Ok v.
Proof.
  unfold coord_or_zero. cbn [Py.len]. rewrite bind_Ok.
  destruct (Nat.ltb_spec i (length cs)) as [Hlt | Hge]; [|eauto].
  apply lookup_lt_is_Some in Hlt. destruct Hlt as [v Hv].
  exists v. unfold Py.index. now rewrite Hv.
Qed.

(** C9. With the flag not 1, a magnitude in [6.5, 7.5), no assessment from
    the model branch and a coordinates list of fewer than three elements,
    the scorer raises [IndexError] and returns no assessment, while the
    row built for the model on the same event has depth 0. *)
Theorem heuristic_short_coordinates earthquake props mag m geometry cs :
  has_properties earthquake props ->
  flag_not_set props ->
  Py.get (PDict props) "mag" (PNum 0) = Ok mag ->
  Py.num mag = Some m ->
  (6.5 <= m)%Q ->
  (m < 7.5)%Q ->
  model_prediction earthquake = None ->
  Py.getitem earthquake "geometry" = Ok geometry ->
  Py.getitem geometry "coordinates" = Ok (PList cs) ->
  length cs < 3 ->
  predict_tsunami_risk earthquake = Raise IndexError /\
  exists row, prediction_row earthquake = Ok row /\
              Py.assoc "depth" row = Some (PNum 0).
Proof.
  intros Hprops Hflag Hmag Hnum Hge Hlt Hmodel Hgeo Hcoords Hlen.
  split.
  - rewrite (predict_below_overrides _ _ _ _ Hprops Hflag Hmag Hnum Hlt), Hmodel.
    unfold heuristic.
    rewrite (ge_num mag m 6.5 Hnum), bind_Ok, (Qle_bool_true _ _ Hge).
    rewrite Hgeo, bind_Ok, Hcoords, bind_Ok. unfold Py.index.
    rewrite (lookup_ge_None_2 cs 2) by lia. reflexivity.
  - unfold prediction_row.
    rewrite Hprops, bind_Ok, Hgeo, bind_Ok, Hcoords, bind_Ok, Hmag, bind_Ok.
    rewrite (coord_or_zero_short cs 2) by lia. rewrite bind_Ok.
    destruct (coord_or_zero_list cs 1) as [lat ->].
    destruct (coord_or_zero_list cs 0) as [lon ->].
    rewrite !bind_Ok.
    unfold Py.get.
    destruct (Py.assoc "sig" props), (Py.assoc "gap" props),
      (Py.assoc "dmin" props), (Py.assoc "mmi" props);
      rewrite !bind_Ok; eexists; (split; [reflexivity | reflexivity]).
Qed.

(** ** Properties of the dispatch gate and the subject label *)

Lemma subject_risk_level_table probability :
  ((0.7 <= probability)%Q -> subject_risk_level probability = "HIGH") /\
  ((0.4 <= probability)%Q -> (probability < 0.7)%Q ->
     subject_risk_level probability = "MEDIUM") /\
  ((probability < 0.4)%Q -> subject_risk_level probability = "LOW").
Proof.
  unfold subject_risk_level. repeat split.
  - intros H. now rewrite (Qle_bool_true _ _ H).
  - intros H1 H2. now rewrite (Qle_bool_false _ _ H2), (Qle_bool_true _ _ H1).
  - intros H. rewrite (Qle_bool_false 0.7 probability) by lra.
    now rewrite (Qle_bool_false _ _ H).
Qed.

Lemma event_time_inv earthquake et :
  event_time earthquake = Ok et ->
  exists props time_ms seconds,
    has_properties earthquake props /\
    Py.get (PDict props) "time" (PNum 0) = Ok time_ms /\
    Py.div time_ms 1000 = Ok seconds /\
    fromtimestamp seconds = Ok et.
Proof.
  unfold event_time, has_properties. intros H.
  destruct (Py.getitem earthquake "properties") as [v|] eqn:Hv; [|discriminate].
  rewrite bind_Ok in H.
  destruct v as [| | | | |props]; try discriminate.
  destruct (Py.get (PDict props) "time" (PNum 0)) as [time_ms|] eqn:Ht; [|discriminate].
  rewrite bind_Ok in H.
  destruct (Py.div time_ms 1000) as [seconds|] eqn:Hs; [|discriminate].
  rewrite bind_Ok in H. eauto 10.
Qed.

Lemma get_dict_total props k d : exists v, Py.get (PDict props) k d = Ok v.
Proof. unfold Py.get. destruct (Py.assoc k props); eauto. Qed.

Lemma format_email_subject_label earthquake props probability :
  has_properties earthquake props ->
  exists subject,
    format_email_subject earthquake probability = Ok subject /\
    has_label subject (subject_risk_level probability).
Proof.
  intros Hprops. unfold format_email_subject.
  destruct (get_dict_total props "mag" (PNum 0)) as [mag Hmag].
  destruct (get_dict_total props "place" (PStr "Unknown location")) as [place Hplace].
  rewrite Hprops, !bind_Ok, Hmag, bind_Ok, ?Hprops, ?bind_Ok, Hplace, bind_Ok.
  eexists. split; [reflexivity|]. eexists. reflexivity.
Qed.

(** An event with a coordinates list whose time could be read has a body. *)
Lemma format_email_body_total earthquake et geometry cs probability reason :
  event_time earthquake = Ok et ->
  Py.getitem earthquake "geometry" = Ok geometry ->
  Py.getitem geometry "coordinates" = Ok (PList cs) ->
  exists body, format_email_body earthquake probability reason = Ok body.
Proof.
  intros Het Hgeo Hcoords.
  destruct (event_time_inv _ _ Het) as (props & time_ms & seconds & Hp & Ht & Hs & Hf).
  unfold format_email_body.
  rewrite Hp, bind_Ok, Hgeo, bind_Ok, Hcoords, bind_Ok, Ht, bind_Ok, Hs, bind_Ok,
    Hf, bind_Ok.
  destruct (coord_or_zero_list cs 1) as [lat ->].
  destruct (coord_or_zero_list cs 0) as [lon ->].
  rewrite !bind_Ok.
  destruct (get_dict_total props "mag" (PStr "N/A")) as [mag Hmag].
  destruct (get_dict_total props "place" (PStr "Unknown")) as [place Hplace].
  assert (Hdepth : exists depth,
             (if Nat.ltb 2 (length cs) then Py.index (PList cs) 2 else Ok (PStr "N/A"))
             = Ok depth).
  { destruct (Nat.ltb_spec 2 (length cs)) as [Hlt | Hge]; [|eauto].
    apply lookup_lt_is_Some in Hlt. destruct Hlt as [v Hv].
    exists v. unfold Py.index. now rewrite Hv. }
  destruct Hdepth as [depth Hdepth].
  destruct (Qle_bool 0.7 probability), (Qle_bool 0.4 probability);
    rewrite Hmag, bind_Ok, Hplace, bind_Ok; cbn [Py.len]; rewrite bind_Ok, Hdepth, bind_Ok;
    eauto.
Qed.

(** The gate alone, for any event that passed the recency test and was
    scored. *)
Lemma process_event_gate now recipients earthquake et probability reason :
  event_time earthquake = Ok et ->
  (now - et <= 1800)%Q ->
  predict_tsunami_risk earthquake = Ok (probability, reason) ->
  process_event now recipients earthquake =
    if Qle_bool 0.4 probability
    then send_alert recipients earthquake probability reason
    else Ok (BelowThreshold probability).
Proof.
  intros Het Hage Hrisk. unfold process_event.
  rewrite Het, bind_Ok, (Qle_bool_true _ _ Hage). cbn [negb]. cbv iota.
  now rewrite Hrisk, bind_Ok.
Qed.

(** C4. For an event that passed the recency test and was assessed with
    [probability]: the block that formats and sends the alert runs when
    [probability >= 0.4], and the event is dropped below that; the subject
    is labelled HIGH from 0.7, MEDIUM from 0.4 up to 0.7, LOW below 0.4,
    by a test of its own; whenever the body can be formatted, the event is
    handed to [send_email_alert] exactly when [probability >= 0.4]; an
    event assessed at exactly 0.4 is sent with label MEDIUM. *)
Theorem dispatch_gate_and_subject_label now recipients earthquake et probability reason :
  event_time earthquake = Ok et ->
  (now - et <= 1800)%Q ->
  predict_tsunami_risk earthquake = Ok (probability, reason) ->
  ((0.4 <= probability)%Q ->
     process_event now recipients earthquake =
       send_alert recipients earthquake probability reason) /\
  ((probability < 0.4)%Q ->
     process_event now recipients earthquake = Ok (BelowThreshold probability)) /\
  exists subject,
    format_email_subject earthquake probability = Ok subject /\
    ((0.7 <= probability)%Q -> has_label subject "HIGH") /\
    ((0.4 <= probability)%Q -> (probability < 0.7)%Q -> has_label subject "MEDIUM") /\
    ((probability < 0.4)%Q -> has_label subject "LOW") /\
    forall body,
      format_email_body earthquake probability reason = Ok body ->
      ((0.4 <= probability)%Q <->
         process_event now recipients earthquake =
           Ok (Alerted subject body (send_email_alert recipients subject body))) /\
      ((probability == 0.4)%Q ->
         has_label subject "MEDIUM" /\
         process_event now recipients earthquake =
           Ok (Alerted subject body (send_email_alert recipients subject body))).
Proof.
  intros Het Hage Hrisk.
  pose proof (process_event_gate now recipients _ _ _ _ Het Hage Hrisk) as Hgate.
  destruct (event_time_inv _ _ Het) as (props & _ & _ & Hprops & _).
  destruct (format_email_subject_label _ _ probability Hprops) as (subject & Hsubj & Hlabel).
  destruct (subject_risk_level_table probability) as (Hhigh & Hmedium & Hlow).
  assert (Hsend : forall body,
             format_email_body earthquake probability reason = Ok body ->
             send_alert recipients earthquake probability reason =
               Ok (Alerted subject body (send_email_alert recipients subject body))).
  { intros body Hbody. unfold send_alert. now rewrite Hsubj, bind_Ok, Hbody, bind_Ok. }
  split; [|split].
  - intros Hp. now rewrite Hgate, (Qle_bool_true _ _ Hp).
  - intros Hp. now rewrite Hgate, (Qle_bool_false _ _ Hp).
  - exists subject. split; [exact Hsubj|].
    split; [intros Hp; now rewrite <- (Hhigh Hp)|].
    split; [intros Hp1 Hp2; now rewrite <- (Hmedium Hp1 Hp2)|].
    split; [intros Hp; now rewrite <- (Hlow Hp)|].
    intros body Hbody. split; [split|].
    + intros Hp. now rewrite Hgate, (Qle_bool_true _ _ Hp), (Hsend body Hbody).
    + intros Hsent. rewrite Hgate in Hsent.
      destruct (Qle_bool 0.4 probability) eqn:E; [|discriminate].
      now apply Qle_bool_iff in E.
    + intros Hp. split.
      * rewrite <- Hmedium; [exact Hlabel | lra | lra].
      * rewrite Hgate, (Qle_bool_true 0.4 probability) by lra. now apply Hsend.
Qed.

(** ** Properties of the recency test *)

(** The recency test reads the clock and the event only: what a cycle did
    with an event before plays no part. *)
Lemma process_event_recent now recipients earthquake et :
  event_time earthquake = Ok et ->
  (now - et <= 1800)%Q ->
  process_event now recipients earthquake =
    ('(probability, reason) ← predict_tsunami_risk earthquake;
     if Qle_bool 0.4 probability
     then send_alert recipients earthquake probability reason
     else Ok (BelowThreshold probability)).
Proof.
  intros Het Hage. unfold process_event.
  now rewrite Het, bind_Ok, (Qle_bool_true _ _ Hage).
Qed.

Lemma process_event_old now recipients earthquake et :
  event_time earthquake = Ok et ->
  (1800 < now - et)%Q ->
  process_event now recipients earthquake = Ok TooOld.
Proof.
  intros Het Hage. unfold process_event.
  now rewrite Het, bind_Ok, (Qle_bool_false _ _ Hage).
Qed.

(** C6, as the code has it. An event for which an alert went out is never
    admitted again once it is more than 1800 seconds old; while it is at
    most 1800 seconds old a later cycle admits it again and sends the same
    alert, since no identifier is recorded. *)
Theorem alerted_event_in_later_cycle now1 now2 recipients earthquake et subject body success :
  event_time earthquake = Ok et ->
  process_event now1 recipients earthquake = Ok (Alerted subject body success) ->
  ((1800 < now2 - et)%Q -> process_event now2 recipients earthquake = Ok TooOld) /\
  ((now2 - et <= 1800)%Q ->
     process_event now2 recipients earthquake = Ok (Alerted subject body success)).
Proof.
  intros Het Hfirst. split.
  - now apply process_event_old.
  - intros Hage. rewrite (process_event_recent now2 _ _ _ Het Hage).
    destruct (Qlt_le_dec 1800 (now1 - et)) as [Hold | Hrecent].
    + rewrite (process_event_old now1 _ _ _ Het Hold) in Hfirst. discriminate.
    + now rewrite (process_event_recent now1 _ _ _ Het Hrecent) in Hfirst.
Qed.

(** ** Properties of the cycle and the loop *)

(** With a list under [features] the cycle handles every event by itself:
    the outcome at a position is that of its event alone, an exception
    included, and the cycle returns. *)
Lemma process_earthquakes_isolates w earthquakes :
  let earthquake_data := (Fetcher.fetch_earthquake_data (net w)).1 in
  let recipients := (Recipients.load_email_recipients (emails w)).1 in
  Py.truthy earthquake_data = true ->
  Py.getitem earthquake_data "features" = Ok (PList earthquakes) ->
  recipients <> [] ->
  exists outcomes alerts_sent,
    process_earthquakes w = Ok (Processed outcomes alerts_sent) /\
    length outcomes = length earthquakes /\
    forall i earthquake,
      earthquakes !! i = Some earthquake ->
      outcomes !! i = Some (process_event (clock w i) recipients earthquake).
Proof.
  intros earthquake_data recipients Htruthy Hfound Hrecipients.
  unfold process_earthquakes. fold earthquake_data. fold recipients.
  rewrite Htruthy. cbn [negb]. cbv iota.
  rewrite Hfound, bind_Ok. cbn [Py.len]. rewrite bind_Ok.
  destruct recipients as [|r rs] eqn:Hr; [congruence|].
  cbn [length Nat.eqb]. cbv iota. rewrite ?Hfound, ?bind_Ok. cbn [Py.iter]. rewrite bind_Ok.
  eexists _, _. split; [reflexivity|]. split.
  - apply length_imap.
  - intros i earthquake Hi. now rewrite list_lookup_imap, Hi.
Qed.

Lemma process_earthquakes_returns w :
  payload_has_feature_list w -> exists c, process_earthquakes w = Ok c.
Proof.
  intros [Hfalsy | [earthquakes Hfound]].
  - exists NoData. unfold process_earthquakes. now rewrite Hfalsy.
  - destruct (Py.truthy (Fetcher.fetch_earthquake_data (net w)).1) eqn:Htruthy.
    + destruct ((Recipients.load_email_recipients (emails w)).1) as [|r rs] eqn:Hr.
      * exists NoRecipients. unfold process_earthquakes.
        rewrite Htruthy. cbn [negb]. cbv iota.
        rewrite Hfound, bind_Ok. cbn [Py.len]. rewrite bind_Ok. now rewrite Hr.
      * destruct (process_earthquakes_isolates w earthquakes Htruthy Hfound)
          as (outcomes & alerts_sent & Hrun & _); [now rewrite Hr | eauto].
    + exists NoData. unfold process_earthquakes. now rewrite Htruthy.
Qed.

(** When every session ends, no cycle hangs. *)
Lemma sessions_end_no_hang w :
  (forall recipients subject body, smtp_ends recipients subject body = true) ->
  cycle_hangs w = false.
Proof.
  intros Hends. unfold cycle_hangs.
  destruct (process_earthquakes w) as [[| |outcomes sent]|]; try reflexivity.
  induction outcomes as [|o outcomes IH]; [reflexivity|].
  cbn [existsb]. rewrite IH, orb_false_r.
  destruct o as [[| |subject body success]|]; try reflexivity.
  cbn [session_hangs]. now rewrite Hends, andb_false_r.
Qed.

Lemma main_loop_runs worlds interrupt :
  sleep check_interval = Ok tt ->
  (forall i, cycle_hangs (worlds i) = false) ->
  (forall i, interrupt i = false) ->
  (forall i, payload_has_feature_list (worlds i)) ->
  forall fuel i, main_loop worlds interrupt i fuel = Running (i + fuel).
Proof.
  intros Hinterval Hends Hquiet Hpayload. induction fuel as [|fuel IH]; intros i.
  - cbn. f_equal. lia.
  - cbn [main_loop]. rewrite Hquiet, Hends.
    destruct (process_earthquakes_returns _ (Hpayload i)) as [c ->].
    rewrite Hinterval, IH. f_equal. lia.
Qed.

(** C8, as the code has it. When [time.sleep] accepts the interval,
    every SMTP session ends and no interrupt arrives, as long as each
    cycle's payload is falsy or carries a list under [features], the loop
    never stops: after any number of iterations it has completed that many
    cycles and is still running.  Inside such a cycle a failed fetch or an empty recipient
    list skips the cycle, and each event is handled by itself: its
    outcome, an exception included, is that of the event alone and the
    events after it are still processed. *)
Theorem loop_survives_cycle_failures worlds interrupt :
  sleep check_interval = Ok tt ->
  (forall recipients subject body, smtp_ends recipients subject body = true) ->
  (forall i, interrupt i = false) ->
  (forall i, payload_has_feature_list (worlds i)) ->
  (forall n, main worlds interrupt n = Running n) /\
  (forall i, exists c, process_earthquakes (worlds i) = Ok c) /\
  (forall i earthquakes,
     let w := worlds i in
     let earthquake_data := (Fetcher.fetch_earthquake_data (net w)).1 in
     let recipients := (Recipients.load_email_recipients (emails w)).1 in
     Py.truthy earthquake_data = true ->
     Py.getitem earthquake_data "features" = Ok (PList earthquakes) ->
     recipients <> [] ->
     exists outcomes alerts_sent,
       process_earthquakes w = Ok (Processed outcomes alerts_sent) /\
       length outcomes = length earthquakes /\
       forall j earthquake,
         earthquakes !! j = Some earthquake ->
         outcomes !! j = Some (process_event (clock w j) recipients earthquake)).
Proof.
  intros Hinterval Hends Hquiet Hpayload. split; [|split].
  - intros n. unfold main. rewrite main_loop_runs; auto.
    intros i. now apply sessions_end_no_hang.
  - intros i. now apply process_earthquakes_returns.
  - intros i earthquakes w earthquake_data recipients.
    apply process_earthquakes_isolates.
Qed.

(** ** Further properties of [email_alert.py] *)

(** Reading a chain of binds that ended well, one step at a time. *)
Ltac bind_step H :=
  match type of H with
  | (?m ≫= _) = Ok _ =>
      let E := fresh "E" in
      destruct m eqn:E; [rewrite bind_Ok in H | discriminate H]
  end.

Ltac bind_inv H :=
  repeat match type of H with
         | (?m ≫= _) = Ok _ =>
             let E := fresh "E" in
             destruct m eqn:E; [rewrite bind_Ok in H | discriminate H]
         end.

Lemma assoc_map_key {A} (v : string -> A) (g : A -> pyval) f (l : list string) :
  f ∈ l -> Py.assoc f (map (fun k => (k, g (v k))) l) = Some (g (v f)).
Proof.
  induction l as [|k l IH]; intros Hin; [inversion Hin|].
  cbn [map Py.assoc]. destruct (String.eqb_spec f k) as [->|Hne]; [reflexivity|].
  apply IH. apply elem_of_cons in Hin as [Heq | Hin]; [contradiction | exact Hin].
Qed.

Lemma assoc_not_key f (d : list (string * pyval)) :
  f ∉ d.*1 -> Py.assoc f d = None.
Proof.
  induction d as [|[k v] d IH]; intros Hnot; [reflexivity|].
  cbn [Py.assoc]. destruct (String.eqb_spec f k) as [->|Hne].
  - exfalso. apply Hnot. cbn. apply elem_of_cons. now left.
  - apply IH. intros Hin. apply Hnot. cbn. apply elem_of_cons. now right.
Qed.

Lemma prediction_row_keys earthquake row :
  prediction_row earthquake = Ok row -> row.*1 = base_features.
Proof.
  unfold prediction_row. intros H. bind_inv H. injection H as <-. reflexivity.
Qed.

(** The frame handed to the model has exactly the columns of the feature
    list, in its order; a column takes the value of the row built from the
    event, and every feature that is not one of the eight keys of that row
    is 0. *)
Theorem prepare_prediction_data_columns earthquake frame :
  prepare_prediction_data earthquake = Some frame ->
  frame.*1 = features /\
  exists row,
    prediction_row earthquake = Ok row /\
    forall f, f ∈ features ->
      Py.assoc f frame = Some (default (PNum 0) (Py.assoc f row)) /\
      (f ∉ base_features -> Py.assoc f frame = Some (PNum 0)).
Proof.
  unfold prepare_prediction_data. intros H.
  destruct (prediction_row earthquake) as [row|] eqn:Hrow; [|discriminate].
  rewrite bind_Ok in H. injection H as <-. split.
  - unfold select_features. rewrite <- list_fmap_compose.
    clear. induction features as [|f l IH]; [reflexivity|]. cbn. now rewrite IH.
  - exists row. split; [reflexivity|]. intros f Hf.
    assert (Hcol : Py.assoc f (select_features row)
                   = Some (default (PNum 0) (Py.assoc f row))).
    { unfold select_features.
      apply (assoc_map_key (fun k => Py.assoc k row) (default (PNum 0)) f features Hf). }
    split; [exact Hcol|].
    intros Hbase. rewrite Hcol, assoc_not_key; [reflexivity|].
    now rewrite (prediction_row_keys _ _ Hrow).
Qed.

(** Without a [geometry] entry the frame cannot be built, so the model is
    never asked, loaded or not. *)
Lemma model_prediction_needs_geometry earthquake ex :
  Py.getitem earthquake "geometry" = Raise ex ->
  model_prediction earthquake = None.
Proof.
  intros Hgeo. unfold model_prediction. destruct model; [|reflexivity].
  unfold prepare_prediction_data, prediction_row.
  destruct (Py.getitem earthquake "properties"); [|reflexivity].
  now rewrite bind_Ok, Hgeo.
Qed.

(** An event that passes both overrides and has no [geometry] entry is
    never scored by the model: below magnitude 6.5 it gets the heuristic's
    0.3 or 0.1, and from 6.5 on the scorer raises the exception of the
    missing entry. *)
Theorem no_geometry_no_model earthquake props mag m ex :
  has_properties earthquake props ->
  flag_not_set props ->
  Py.get (PDict props) "mag" (PNum 0) = Ok mag ->
  Py.num mag = Some m ->
  (m < 7.5)%Q ->
  Py.getitem earthquake "geometry" = Raise ex ->
  ((6.0 <= m)%Q -> (m < 6.5)%Q ->
     predict_tsunami_risk earthquake =
       Ok (0.3%Q, "Moderate earthquake - low tsunami risk")) /\
  ((m < 6.0)%Q ->
     predict_tsunami_risk earthquake =
       Ok (0.1%Q, "Low magnitude - very low tsunami risk")) /\
  ((6.5 <= m)%Q -> predict_tsunami_risk earthquake = Raise ex).
Proof.
  intros Hprops Hflag Hmag Hnum Hlt Hgeo.
  pose proof (model_prediction_needs_geometry _ _ Hgeo) as Hmodel.
  repeat split.
  - intros H6 H65.
    rewrite (heuristic_small_magnitude _ _ _ _ Hprops Hflag Hmag Hnum H65 Hmodel).
    now rewrite (Qle_bool_true _ _ H6).
  - intros H6.
    rewrite (heuristic_small_magnitude _ _ _ _ Hprops Hflag Hmag Hnum) by (lra || exact Hmodel).
    now rewrite (Qle_bool_false _ _ H6).
  - intros H65.
    rewrite (predict_below_overrides _ _ _ _ Hprops Hflag Hmag Hnum Hlt), Hmodel.
    unfold heuristic.
    now rewrite (ge_num mag m 6.5 Hnum), bind_Ok, (Qle_bool_true _ _ H65), Hgeo.
Qed.

(** *** What an alert is made of *)

Lemma format_email_subject_inv earthquake probability subject :
  format_email_subject earthquake probability = Ok subject ->
  has_label subject (subject_risk_level probability).
Proof.
  unfold format_email_subject. intros H. bind_inv H. injection H as <-.
  eexists. reflexivity.
Qed.

Lemma format_email_body_inv earthquake probability reason body :
  format_email_body earthquake probability reason = Ok body ->
  (body_risk_level body, body_risk_color body)
    = body_style_of (subject_risk_level probability) /\
  body_probability body = fmt2f probability /\
  body_reason body = reason.
Proof.
  unfold format_email_body, body_style_of, subject_risk_level. intros H.
  bind_inv H.
  destruct (Qle_bool 0.7 probability), (Qle_bool 0.4 probability);
    bind_inv H; injection H as <-; repeat split.
Qed.

Lemma process_event_alerted_inv now recipients earthquake subject body success :
  process_event now recipients earthquake = Ok (Alerted subject body success) ->
  exists probability reason,
    predict_tsunami_risk earthquake = Ok (probability, reason) /\
    (0.4 <= probability)%Q /\
    format_email_subject earthquake probability = Ok subject /\
    format_email_body earthquake probability reason = Ok body /\
    success = send_email_alert recipients subject body.
Proof.
  unfold process_event. intros H. bind_inv H.
  destruct (negb (Qle_bool (now - a) 1800)); [discriminate|].
  bind_inv H. destruct a0 as [probability reason].
  destruct (Qle_bool 0.4 probability) eqn:Hgate; [|discriminate].
  unfold send_alert in H. bind_inv H. injection H as <- <- <-.
  exists probability, reason. apply Qle_bool_iff in Hgate. auto.
Qed.

(** In every alert the subject label and the body agree: HIGH goes with
    risk level High in red, MEDIUM with Medium in yellow, and the body
    shows the probability and the reason the scorer returned. *)
Theorem alert_subject_and_body_agree now recipients earthquake subject body success :
  process_event now recipients earthquake = Ok (Alerted subject body success) ->
  exists probability reason label,
    predict_tsunami_risk earthquake = Ok (probability, reason) /\
    has_label subject label /\
    ((label = "HIGH" /\ 0.7 <= probability)%Q \/
     (label = "MEDIUM" /\ 0.4 <= probability < 0.7)%Q) /\
    (body_risk_level body, body_risk_color body) = body_style_of label /\
    body_probability body = fmt2f probability /\
    body_reason body = reason.
Proof.
  intros H.
  destruct (process_event_alerted_inv _ _ _ _ _ _ H)
    as (probability & reason & Hrisk & Hgate & Hsubject & Hbody & _).
  exists probability, reason, (subject_risk_level probability).
  destruct (format_email_body_inv _ _ _ _ Hbody) as (Hstyle & Hprob & Hreason).
  repeat split; try assumption.
  - now apply format_email_subject_inv in Hsubject.
  - unfold subject_risk_level. rewrite (Qle_bool_true _ _ Hgate).
    destruct (Qle_bool 0.7 probability) eqn:Hhigh.
    + left. split; [reflexivity | now apply Qle_bool_iff].
    + right. repeat split; [exact Hgate|].
      apply Qnot_le_lt. intros Hle. apply Qle_bool_iff in Hle. congruence.
Qed.

(** With the user name or the password empty no alert is ever counted as
    sent, whatever the SMTP session would do. *)
Theorem no_credentials_no_alert_sent w c :
  EMAIL_USERNAME = "" \/ EMAIL_PASSWORD = "" ->
  process_earthquakes w = Ok c ->
  c = NoData \/ c = NoRecipients \/
  exists outcomes,
    c = Processed outcomes 0 /\
    forall subject body success,
      Ok (Alerted subject body success) ∈ outcomes -> success = false.
Proof.
  intros Hcred Hrun.
  assert (Hsend : forall recipients subject body,
             send_email_alert recipients subject body = false).
  { intros. unfold send_email_alert. destruct Hcred as [-> | ->]; cbn; [reflexivity|].
    now rewrite orb_true_r. }
  unfold process_earthquakes in Hrun.
  destruct (negb (Py.truthy (Fetcher.fetch_earthquake_data (net w)).1));
    [injection Hrun as <-; now left|].
  bind_inv Hrun.
  destruct (Nat.eqb (length (Recipients.load_email_recipients (emails w)).1) 0);
    [injection Hrun as <-; right; now left|].
  bind_inv Hrun. injection Hrun as <-. right. right.
  set (recipients := (Recipients.load_email_recipients (emails w)).1).
  set (outcomes := imap _ _).
  assert (Hnone : forall subject body success,
             Ok (Alerted subject body success) ∈ outcomes -> success = false).
  { intros subject body success Hin. subst outcomes.
    apply elem_of_lookup_imap_1 in Hin as (i & earthquake & Hout & _).
    symmetry in Hout.
    destruct (process_event_alerted_inv _ _ _ _ _ _ Hout) as (_ & _ & _ & _ & _ & _ & ->).
    apply Hsend. }
  exists outcomes. split; [|exact Hnone].
  f_equal.
  destruct (filter (fun o => alert_sent o = true) outcomes) as [|o sent] eqn:Hsent;
    [reflexivity|].
  assert (Ho : o ∈ filter (fun o => alert_sent o = true) outcomes)
    by (rewrite Hsent; apply elem_of_cons; now left).
  apply list_elem_of_filter in Ho as [Halert Ho].
  destruct o as [[| |subject body success]|]; try discriminate.
  cbn in Halert. subst success. now specialize (Hnone _ _ _ Ho).
Qed.

Lemma coord_or_zero_lookup cs i :
  coord_or_zero (PList cs) i = Ok (default (PNum 0) (cs !! i)).
Proof.
  unfold coord_or_zero. cbn [Py.len]. rewrite bind_Ok.
  destruct (Nat.ltb_spec i (length cs)) as [Hlt | Hge].
  - apply lookup_lt_is_Some in Hlt. destruct Hlt as [v Hv].
    unfold Py.index. now rewrite Hv.
  - now rewrite (lookup_ge_None_2 cs i Hge).
Qed.

(** For an event whose time can be read and whose coordinates are a list
    of any length, the body is always produced: a missing depth is shown
    as N/A, a missing latitude or longitude as 0, and the map link is made
    of the two cells shown. *)
Theorem format_email_body_cells earthquake et geometry cs probability reason :
  event_time earthquake = Ok et ->
  Py.getitem earthquake "geometry" = Ok geometry ->
  Py.getitem geometry "coordinates" = Ok (PList cs) ->
  exists body,
    format_email_body earthquake probability reason = Ok body /\
    body_depth body = py_str (default (PStr "N/A") (cs !! 2)) /\
    body_lat body = py_str (default (PNum 0) (cs !! 1)) /\
    body_lon body = py_str (default (PNum 0) (cs !! 0)) /\
    body_maps_link body =
      "https://www.google.com/maps?q=" ++ body_lat body ++ "," ++ body_lon body.
Proof.
  intros Het Hgeo Hcoords.
  destruct (format_email_body_total _ _ _ _ probability reason Het Hgeo Hcoords)
    as [body Hbody].
  exists body. split; [exact Hbody|].
  unfold format_email_body in Hbody.
  bind_step Hbody. rewrite Hgeo, bind_Ok, Hcoords, bind_Ok in Hbody.
  do 3 bind_step Hbody.
  rewrite !coord_or_zero_lookup, !bind_Ok in Hbody.
  assert (Hdepth : (if Nat.ltb 2 (length cs) then Py.index (PList cs) 2
                    else Ok (PStr "N/A"))
                   = Ok (default (PStr "N/A") (cs !! 2))).
  { destruct (Nat.ltb_spec 2 (length cs)) as [Hlt | Hge].
    - apply lookup_lt_is_Some in Hlt. destruct Hlt as [v Hv].
      unfold Py.index. now rewrite Hv.
    - now rewrite (lookup_ge_None_2 cs 2 Hge). }
  destruct (Qle_bool 0.7 probability), (Qle_bool 0.4 probability);
    do 2 bind_step Hbody; cbn [Py.len] in Hbody;
    rewrite bind_Ok, Hdepth, bind_Ok in Hbody;
    injection Hbody as <-; repeat split.
Qed.

(** *** The scorer without the model *)

(** When the model branch gives nothing, the probability is one of the
    five constants of the overrides and the heuristic. *)
Theorem score_without_model earthquake probability reason :
  model_prediction earthquake = None ->
  predict_tsunami_risk earthquake = Ok (probability, reason) ->
  probability = 1.0%Q \/ probability = 0.9%Q \/ probability = 0.7%Q \/
  probability = 0.3%Q \/ probability = 0.1%Q.
Proof.
  intros Hmodel H. unfold predict_tsunami_risk in H.
  repeat match type of H with
         | (?m ≫= _) = Ok _ => bind_step H
         | (if ?b then _ else _) = Ok _ => destruct b
         | context [model_prediction earthquake] =>
             rewrite Hmodel in H; unfold heuristic in H
         end;
    injection H as <- _; auto 6.
Qed.

(** Without an assessment from the model every alert that goes out is
    labelled HIGH with risk level High, and every scored event that is
    dropped has probability 0.3 or 0.1: a MEDIUM alert can only come from
    the model. *)
Theorem alerts_without_model now recipients earthquake :
  model_prediction earthquake = None ->
  (forall subject body success,
     process_event now recipients earthquake = Ok (Alerted subject body success) ->
     has_label subject "HIGH" /\ body_risk_level body = "High") /\
  (forall probability,
     process_event now recipients earthquake = Ok (BelowThreshold probability) ->
     probability = 0.3%Q \/ probability = 0.1%Q).
Proof.
  intros Hmodel. split.
  - intros subject body success H.
    destruct (process_event_alerted_inv _ _ _ _ _ _ H)
      as (probability & reason & Hrisk & Hgate & Hsubject & Hbody & _).
    assert (Hhigh : subject_risk_level probability = "HIGH").
    { destruct (score_without_model _ _ _ Hmodel Hrisk)
        as [-> | [-> | [-> | [-> | ->]]]];
        first [reflexivity | exfalso; revert Hgate; clear; intros; lra]. }
    apply format_email_subject_inv in Hsubject. rewrite Hhigh in Hsubject.
    split; [exact Hsubject|].
    destruct (format_email_body_inv _ _ _ _ Hbody) as (Hstyle & _).
    rewrite Hhigh in Hstyle. now injection Hstyle.
  - intros probability H. unfold process_event in H. bind_inv H.
    destruct (negb (Qle_bool (now - a) 1800)); [discriminate|].
    bind_inv H. destruct a0 as [p reason].
    destruct (Qle_bool 0.4 p) eqn:Hgate.
    + unfold send_alert in H. bind_inv H. discriminate.
    + injection H as <-.
      destruct (score_without_model _ _ _ Hmodel E0)
        as [-> | [-> | [-> | [-> | ->]]]]; auto; discriminate.
Qed.

(** *** The cycle and the loop, further *)

(** When the primary answers with a status other than 200 and the backup
    is unusable, the fetcher has asked both and the cycle is skipped. *)
Theorem both_feeds_unusable_skips_cycle w status_code json :
  net w Fetcher.USGS_API_URL = Fetcher.Reply status_code json ->
  status_code <> 200%Z ->
  unusable (net w Fetcher.BACKUP_API_URL) ->
  Fetcher.fetch_earthquake_data (net w)
    = (PNone, [Fetcher.USGS_API_URL; Fetcher.BACKUP_API_URL]) /\
  process_earthquakes w = Ok NoData.
Proof.
  intros Hprimary Hstatus Hbackup.
  assert (Hfetch : Fetcher.fetch_earthquake_data (net w)
                   = (PNone, [Fetcher.USGS_API_URL; Fetcher.BACKUP_API_URL])).
  { unfold Fetcher.fetch_earthquake_data. rewrite Hprimary.
    destruct (Z.eqb_spec status_code 200); [contradiction|].
    destruct (net w Fetcher.BACKUP_API_URL) as [|code body]; [reflexivity|].
    destruct Hbackup as [Hcode | [e ->]].
    - now destruct (Z.eqb_spec code 200).
    - now destruct (Z.eqb code 200). }
  split; [exact Hfetch|].
  unfold process_earthquakes. now rewrite Hfetch.
Qed.

Lemma main_loop_skip worlds interrupt :
  sleep check_interval = Ok tt ->
  forall d i fuel,
    (forall j, i <= j < i + d ->
       interrupt j = false /\ cycle_hangs (worlds j) = false /\
       cycle_returns (worlds j)) ->
    main_loop worlds interrupt i (d + fuel) = main_loop worlds interrupt (i + d) fuel.
Proof.
  intros Hinterval. induction d as [|d IH]; intros i fuel Hok.
  - cbn. f_equal. lia.
  - destruct (Hok i) as (Hquiet & Hends & [c Hc]); [lia|].
    cbn [Nat.add main_loop]. rewrite Hquiet, Hends, Hc, Hinterval.
    rewrite IH by (intros j Hj; apply Hok; lia). f_equal. lia.
Qed.

(** The loop is still running after [n] iterations exactly when none of
    the first [n] iterations was interrupted, none of their cycles was
    held by a session that does not end or left by an exception, and, if
    there was an iteration at all, [time.sleep] accepts the interval. *)
Theorem main_running_iff worlds interrupt n :
  main worlds interrupt n = Running n <->
  forall i, i < n ->
    interrupt i = false /\ cycle_hangs (worlds i) = false /\
    cycle_returns (worlds i) /\ sleep check_interval = Ok tt.
Proof.
  unfold main.
  assert (Hgen : forall fuel i,
             main_loop worlds interrupt i fuel = Running (i + fuel) ->
             forall j, i <= j < i + fuel ->
               interrupt j = false /\ cycle_hangs (worlds j) = false /\
               cycle_returns (worlds j) /\ sleep check_interval = Ok tt).
  { induction fuel as [|fuel IH]; intros i Hrun j Hj; [lia|].
    cbn [main_loop] in Hrun.
    destruct (interrupt i) eqn:Hquiet; [discriminate|].
    destruct (cycle_hangs (worlds i)) eqn:Hends; [discriminate|].
    destruct (process_earthquakes (worlds i)) as [c|e] eqn:Hc; [|discriminate].
    destruct (sleep check_interval) as [[]|e] eqn:Hsleep; [|discriminate].
    destruct (decide (j = i)) as [->|Hne].
    - split; [exact Hquiet|]. split; [exact Hends|].
      split; [now exists c | reflexivity].
    - apply (IH (S i)); [|lia]. rewrite Hrun. f_equal. lia. }
  split.
  - intros Hrun i Hi. apply (Hgen n 0 Hrun). lia.
  - intros Hok. destruct n as [|n]; [reflexivity|].
    assert (Hsleep : sleep check_interval = Ok tt) by (apply (Hok 0); lia).
    pose proof (main_loop_skip worlds interrupt Hsleep (S n) 0 0) as Hskip.
    rewrite Nat.add_0_r in Hskip. rewrite Hskip; [reflexivity|].
    intros j Hj. destruct (Hok j) as (H1 & H2 & H3 & _); [lia | auto].
Qed.

(** When [time.sleep] accepts the interval, the loop ends at the first
    iteration that is interrupted, whose cycle raises, or whose cycle is
    held by a session that does not end, with that iteration's number and
    cause, however many iterations it is given afterwards. *)
Theorem main_stops_at_first_failure worlds interrupt k :
  sleep check_interval = Ok tt ->
  (forall i, i < k ->
     interrupt i = false /\ cycle_hangs (worlds i) = false /\
     cycle_returns (worlds i)) ->
  (interrupt k = true ->
     forall n, k < n -> main worlds interrupt n = StoppedByUser k) /\
  (forall e, interrupt k = false -> process_earthquakes (worlds k) = Raise e ->
     forall n, k < n -> main worlds interrupt n = StoppedByError k e) /\
  (interrupt k = false -> cycle_hangs (worlds k) = true ->
     forall n, k < n -> main worlds interrupt n = Blocked k).
Proof.
  intros Hinterval Hok.
  assert (Hskip : forall n, k < n ->
             main worlds interrupt n = main_loop worlds interrupt k (S (n - k - 1))).
  { intros n Hn. unfold main.
    replace n with (k + S (n - k - 1)) at 1 by lia.
    rewrite (main_loop_skip worlds interrupt Hinterval k 0); [reflexivity|].
    intros j Hj. apply Hok. lia. }
  split; [|split].
  - intros Hint n Hn. rewrite (Hskip n Hn). cbn [main_loop]. now rewrite Hint.
  - intros e Hquiet Hraise n Hn. rewrite (Hskip n Hn). cbn [main_loop].
    assert (Hends : cycle_hangs (worlds k) = false)
      by (unfold cycle_hangs; now rewrite Hraise).
    now rewrite Hquiet, Hends, Hraise.
  - intros Hquiet Hhang n Hn. rewrite (Hskip n Hn). cbn [main_loop].
    now rewrite Hquiet, Hhang.
Qed.

(** When [time.sleep] does not accept the interval, the first cycle that
    returns is the last: the sleep raises and the loop ends after one
    cycle, with the exception of the sleep. *)
Theorem rejected_interval_stops_after_one_cycle worlds interrupt n e :
  sleep check_interval = Raise e ->
  interrupt 0 = false ->
  cycle_hangs (worlds 0) = false ->
  cycle_returns (worlds 0) ->
  main worlds interrupt (S n) = StoppedByError 1 e.
Proof.
  intros Hsleep Hquiet Hends [c Hc]. unfold main. cbn [main_loop].
  now rewrite Hquiet, Hends, Hc, Hsleep.
Qed.

(** *** Recipients that do not fall back *)

(** A readable file whose items are all strings lacking an '@' or a '.'
    gives the empty recipient list, not the defaults, and the file is left
    as it was. *)
Lemma only_invalid_addresses file items :
  Recipients.content file = Ok (PList items) ->
  (forall x, x ∈ items ->
     exists s, x = PStr s /\ (Py.char_in "@" s && Py.char_in "." s) = false) ->
  Recipients.load_email_recipients file = ([], file).
Proof.
  intros Hcontent Hbad. unfold Recipients.load_email_recipients, Recipients.read_emails.
  rewrite Hcontent, bind_Ok. cbn [Py.iter Py.len]. rewrite bind_Ok.
  assert (Hnone : Recipients.valid_emails items = Ok []).
  { clear Hcontent. induction items as [|x rest IH]; [reflexivity|].
    cbn [Recipients.valid_emails].
    destruct (Hbad x) as (s & -> & Hs); [apply elem_of_cons; now left|].
    rewrite IH by (intros y Hy; apply Hbad, elem_of_cons; now right).
    unfold Recipients.valid_email. cbn [Py.contains]. rewrite bind_Ok.
    destruct (Py.char_in "@" s); cbn in Hs |- *; [now rewrite Hs | reflexivity]. }
  now rewrite Hnone.
Qed.

(** With such a file no event of the feed is looked at: the cycle ends
    with no recipients, although the fixed default pair exists. *)
Theorem no_valid_address_skips_cycle w items earthquakes :
  let earthquake_data := (Fetcher.fetch_earthquake_data (net w)).1 in
  Py.truthy earthquake_data = true ->
  Py.getitem earthquake_data "features" = Ok (PList earthquakes) ->
  Recipients.content (emails w) = Ok (PList items) ->
  (forall x, x ∈ items ->
     exists s, x = PStr s /\ (Py.char_in "@" s && Py.char_in "." s) = false) ->
  process_earthquakes w = Ok NoRecipients.
Proof.
  intros earthquake_data Htruthy Hfound Hcontent Hbad.
  unfold process_earthquakes. fold earthquake_data.
  rewrite Htruthy. cbn [negb]. cbv iota.
  rewrite Hfound, bind_Ok. cbn [Py.len]. rewrite bind_Ok.
  now rewrite (only_invalid_addresses _ _ Hcontent Hbad).
Qed.

End EmailAlert.

(** ** Properties of the recipient list *)

Module RecipientsFacts.
Import Recipients.

Lemma valid_email_true email :
  valid_email email = Ok true <-> well_shaped email.
Proof.
  unfold valid_email, well_shaped. split.
  - destruct (Py.contains "@" email) as [[|]|]; cbn; intros H;
      first [discriminate | now split].
  - intros [-> ->]. reflexivity.
Qed.

Lemma valid_emails_kept items : forall valid,
  valid_emails items = Ok valid ->
  sublist valid items /\
  Forall well_shaped valid /\
  forall x, x ∈ items -> well_shaped x -> x ∈ valid.
Proof.
  induction items as [|email rest IH]; intros valid Hvalid.
  - injection Hvalid as <-. repeat split; [constructor | constructor |].
    intros x Hx. inversion Hx.
  - cbn [valid_emails] in Hvalid.
    destruct (valid_email email) as [keep|] eqn:Hkeep; [|discriminate].
    rewrite bind_Ok in Hvalid.
    destruct (valid_emails rest) as [kept|] eqn:Hrest; [|discriminate].
    rewrite bind_Ok in Hvalid. injection Hvalid as <-.
    destruct (IH kept eq_refl) as (Hsub & Hall & Hin).
    destruct keep.
    + repeat split.
      * now apply sublist_skip.
      * constructor; [now apply valid_email_true | exact Hall].
      * intros x Hx Hshape. apply elem_of_cons in Hx as [-> | Hx];
          [apply elem_of_cons; now left | apply elem_of_cons; right; now apply Hin].
    + repeat split.
      * now apply sublist_cons.
      * exact Hall.
      * intros x Hx Hshape. apply elem_of_cons in Hx as [-> | Hx]; [|now apply Hin].
        apply valid_email_true in Hshape. congruence.
Qed.

Lemma read_emails_inv file valid :
  read_emails file = Ok valid ->
  exists emails items,
    content file = Ok emails /\ Py.iter emails = Ok items /\
    valid_emails items = Ok valid.
Proof.
  unfold read_emails. intros H.
  destruct (content file) as [emails|]; [|discriminate]. rewrite bind_Ok in H.
  destruct (Py.iter emails) as [items|] eqn:Hiter; [|discriminate]. rewrite bind_Ok in H.
  destruct (valid_emails items) as [kept|] eqn:Hkept; [|discriminate]. rewrite bind_Ok in H.
  destruct (Py.len emails); [|discriminate]. rewrite bind_Ok in H.
  injection H as <-. eauto.
Qed.

Lemma default_emails_well_shaped : Forall well_shaped default_emails.
Proof. repeat constructor. Qed.

(** C10. Every address returned by [load_email_recipients] passes both
    membership tests, ['@' in address] and ['.' in address]; for a string
    that is: it has an '@' character and a '.' character.  When the file
    was read, the result is the valid items of the source, in the order of
    the source; otherwise it is the fixed default pair. *)
Theorem load_email_recipients_well_shaped file :
  let recipients := (load_email_recipients file).1 in
  Forall well_shaped recipients /\
  (forall s, PStr s ∈ recipients ->
     Py.char_in "@" s = true /\ Py.char_in "." s = true) /\
  (forall valid, read_emails file = Ok valid ->
     recipients = valid /\
     exists emails items,
       content file = Ok emails /\ Py.iter emails = Ok items /\
       sublist recipients items /\
       forall x, x ∈ items -> well_shaped x -> x ∈ recipients) /\
  (forall e, read_emails file = Raise e -> recipients = default_emails).
Proof.
  intros recipients.
  assert (Hall : Forall well_shaped recipients).
  { subst recipients. unfold load_email_recipients.
    destruct (read_emails file) as [valid|e] eqn:Hread; cbn [fst].
    - destruct (read_emails_inv _ _ Hread) as (emails & items & _ & _ & Hvalid).
      now apply valid_emails_kept in Hvalid.
    - apply default_emails_well_shaped. }
  split; [exact Hall|]. split; [|split].
  - intros s Hs. rewrite Forall_forall in Hall. destruct (Hall _ Hs) as [Hat Hdot].
    cbn in Hat, Hdot. split; congruence.
  - intros valid Hread. subst recipients. unfold load_email_recipients.
    rewrite Hread. cbn [fst]. split; [reflexivity|].
    destruct (read_emails_inv _ _ Hread) as (emails & items & Hc & Hi & Hvalid).
    apply valid_emails_kept in Hvalid as (Hsub & _ & Hin). eauto 10.
  - intros e Hread. subst recipients. unfold load_email_recipients. now rewrite Hread.
Qed.

End RecipientsFacts.

(** ** Properties of the fetcher *)

Module FetcherFacts.
Import Fetcher.

(** A primary reply with status 200 and a decodable body is returned and
    the backup is left alone. *)
Lemma fetch_primary net data :
  net USGS_API_URL = Reply 200 (Ok data) ->
  fetch_earthquake_data net = (data, [USGS_API_URL]).
Proof. unfold fetch_earthquake_data. now intros ->. Qed.

(** A primary reply with another status is followed by one request to the
    backup, whose decoded body is returned when its status is 200. *)
Lemma fetch_backup_on_status net status_code json :
  net USGS_API_URL = Reply status_code json ->
  status_code <> 200%Z ->
  (fetch_earthquake_data net).2 = [USGS_API_URL; BACKUP_API_URL] /\
  (forall data, net BACKUP_API_URL = Reply 200 (Ok data) ->
     (fetch_earthquake_data net).1 = data).
Proof.
  intros Hprimary Hstatus. unfold fetch_earthquake_data. rewrite Hprimary.
  destruct (Z.eqb_spec status_code 200) as [|_]; [contradiction|].
  split.
  - destruct (net BACKUP_API_URL) as [|code body]; [reflexivity|].
    destruct (Z.eqb code 200); [destruct body|]; reflexivity.
  - now intros data ->.
Qed.

(** When the primary request raises, or its body does not decode, the
    function returns [None] after that single request. *)
Lemma fetch_primary_raises net :
  (exists e, net USGS_API_URL = NoReply e) \/
  (exists e, net USGS_API_URL = Reply 200 (Raise e)) ->
  fetch_earthquake_data net = (PNone, [USGS_API_URL]).
Proof.
  unfold fetch_earthquake_data. now intros [[e ->] | [e ->]].
Qed.

End FetcherFacts.

(** ** Properties of the tier table *)

Module DashboardFacts.
Import Dashboard.

Lemma below_true prob q : (prob < q)%Q -> below prob q = true.
Proof. intros H. unfold below. now rewrite Qle_bool_false. Qed.

Lemma below_false prob q : (q <= prob)%Q -> below prob q = false.
Proof. intros H. unfold below. now rewrite Qle_bool_true. Qed.

(** The interval of each tier. *)
Lemma risk_level_intervals prob :
  (risk_level prob = VeryLow <-> prob < 0.2)%Q /\
  (risk_level prob = Low <-> 0.2 <= prob < 0.4)%Q /\
  (risk_level prob = Moderate <-> 0.4 <= prob < 0.6)%Q /\
  (risk_level prob = High <-> 0.6 <= prob < 0.8)%Q /\
  (risk_level prob = VeryHigh <-> 0.8 <= prob)%Q.
Proof.
  unfold risk_level.
  destruct (Qlt_le_dec prob 0.2) as [H2 | H2];
    [rewrite (below_true _ _ H2) | rewrite (below_false _ _ H2);
  destruct (Qlt_le_dec prob 0.4) as [H4 | H4];
    [rewrite (below_true _ _ H4) | rewrite (below_false _ _ H4);
  destruct (Qlt_le_dec prob 0.6) as [H6 | H6];
    [rewrite (below_true _ _ H6) | rewrite (below_false _ _ H6);
  destruct (Qlt_le_dec prob 0.8) as [H8 | H8];
    [rewrite (below_true _ _ H8) | rewrite (below_false _ _ H8)]]]];
  repeat split; intros; first [discriminate | reflexivity | lra].
Qed.

Lemma risk_level_monotone p q :
  (p <= q)%Q -> tier_rank (risk_level p) <= tier_rank (risk_level q).
Proof.
  intros Hpq.
  destruct (risk_level_intervals p) as (P0 & P1 & P2 & P3 & P4).
  destruct (risk_level_intervals q) as (Q0 & Q1 & Q2 & Q3 & Q4).
  destruct (risk_level p) eqn:Ep, (risk_level q) eqn:Eq; cbn; try lia; exfalso;
    repeat match goal with
           | H : ?t = ?t <-> _ |- _ => apply proj1 in H; specialize (H eq_refl)
           | H : _ <-> _ |- _ => clear H
           end; lra.
Qed.

(** C5. On [0, 1] every probability has a tier, the tiers are the
    half-open intervals [0, 0.2) Very Low, [0.2, 0.4) Low, [0.4, 0.6)
    Moderate, [0.6, 0.8) High and [0.8, 1] Very High, a larger probability
    never has a lower tier, and 0.2, 0.4, 0.6, 0.8 each belong to the tier
    that starts there. *)
Theorem risk_level_table :
  (forall prob, (0 <= prob <= 1)%Q ->
     (risk_level prob = VeryLow <-> 0 <= prob < 0.2)%Q /\
     (risk_level prob = Low <-> 0.2 <= prob < 0.4)%Q /\
     (risk_level prob = Moderate <-> 0.4 <= prob < 0.6)%Q /\
     (risk_level prob = High <-> 0.6 <= prob < 0.8)%Q /\
     (risk_level prob = VeryHigh <-> 0.8 <= prob <= 1)%Q) /\
  (forall p q, (p <= q)%Q -> tier_rank (risk_level p) <= tier_rank (risk_level q)) /\
  risk_level 0.2 = Low /\ risk_level 0.4 = Moderate /\
  risk_level 0.6 = High /\ risk_level 0.8 = VeryHigh.
Proof.
  split; [|split; [exact risk_level_monotone | now vm_compute]].
  intros prob [H0 H1].
  destruct (risk_level_intervals prob) as (T0 & T1 & T2 & T3 & T4).
  rewrite T0, T1, T2, T3, T4. repeat split; intros; lra.
Qed.

End DashboardFacts.

(** ** The code on the sample inputs *)

(** The functions of the section with the sample formatting functions, a
    configured mail account, an SMTP session that always succeeds and a
    fifteen-minute interval plugged in. *)
Local Abbreviation score model :=
  (predict_tsunami_risk Sample.py_str Sample.fmt2f model Sample.features).
Local Abbreviation handle model :=
  (process_event Sample.py_str Sample.fmt2f model Sample.features
     Sample.fromtimestamp Sample.strftime "alerts@example.org" "app-password"
     Sample.smtp).
Local Abbreviation cycle_of model :=
  (process_earthquakes Sample.py_str Sample.fmt2f model Sample.features
     Sample.fromtimestamp Sample.strftime "alerts@example.org" "app-password"
     Sample.smtp).
Local Abbreviation main_of model :=
  (main Sample.py_str Sample.fmt2f model Sample.features
     Sample.fromtimestamp Sample.strftime "alerts@example.org" "app-password"
     Sample.smtp Sample.smtp_ends Sample.sleep 900%Z).

Lemma sample_flag_not_set mag time_ms :
  flag_not_set (Sample.props_of mag 0 time_ms).
Proof. intros flag H. injection H as <-. reflexivity. Qed.

(** The flagged magnitude-7.8 event is scored 1.0 although its magnitude
    would fire the next rule and a model is loaded. *)
Lemma official_flag_first_witness :
  score Sample.model_at_gate Sample.official =
    Ok (1.0%Q, "Official tsunami alert already issued").
Proof.
  apply (official_flag_first _ _ _ _ Sample.official
           (Sample.props_of 7.8 1 Sample.t0_ms) (PNum 1) 1%Q);
    reflexivity.
Defined.

Lemma magnitude_override_witness :
  score Sample.model_at_gate Sample.major =
    Ok (0.9%Q, "Very high magnitude (#) - high tsunami risk").
Proof.
  apply (magnitude_override Sample.py_str _ _ _ Sample.major
           (Sample.props_of 7.6 0 Sample.t0_ms) (PNum 7.6) 7.6%Q).
  - reflexivity.
  - apply sample_flag_not_set.
  - reflexivity.
  - reflexivity.
  - lra.
Defined.

Lemma heuristic_short_coordinates_witness :
  score None Sample.strong_no_depth = Raise IndexError /\
  exists row, prediction_row Sample.strong_no_depth = Ok row /\
              Py.assoc "depth" row = Some (PNum 0).
Proof.
  apply (heuristic_short_coordinates _ _ None _ Sample.strong_no_depth
           (Sample.props_of 6.8 0 Sample.t0_ms) (PNum 6.8) 6.8%Q
           (PDict [("type", PStr "Point");
                   ("coordinates", PList Sample.point_without_depth)])
           Sample.point_without_depth).
  - reflexivity.
  - apply sample_flag_not_set.
  - reflexivity.
  - reflexivity.
  - lra.
  - lra.
  - reflexivity.
  - reflexivity.
  - reflexivity.
  - simpl. lia.
Defined.

(** C3, at an event the feed format allows: magnitude 6.8, flag 0, a
    point with longitude and latitude only, and no model.  The claim has
    the heuristic return 0.7 or 0.3 here; the scorer raises [IndexError],
    whatever the formatting functions and the feature list. *)
Theorem heuristic_raises_without_depth py_str fmt2f features :
  predict_tsunami_risk py_str fmt2f None features Sample.strong_no_depth
  = Raise IndexError.
Proof. reflexivity. Qed.

(** The same event with a depth of 10 km is scored by the first row. *)
Example heuristic_with_depth_sample :
  score None Sample.strong_shallow =
    Ok (0.7%Q, "Shallow large earthquake - moderate tsunami risk").
Proof. reflexivity. Qed.

(** C7, at a network whose primary request fails in transport while the
    backup would answer 200 with a feed: the fetcher returns [None] after
    the one request to the primary and never asks the backup, and the
    cycle is skipped. *)
Theorem backup_not_tried_after_transport_error :
  Sample.primary_down_backup_up Fetcher.BACKUP_API_URL =
    Fetcher.Reply 200 (Ok (Sample.feed [Sample.official])) /\
  Fetcher.fetch_earthquake_data Sample.primary_down_backup_up =
    (PNone, [Fetcher.USGS_API_URL]) /\
  cycle_of None {| net := Sample.primary_down_backup_up;
                   emails := Sample.emails_txt;
                   clock := fun _ => (Sample.t0 + 60)%Q |} = Ok NoData.
Proof. repeat split. Qed.

(** An event scored at exactly 0.4 by the model is sent, labelled MEDIUM. *)
Lemma dispatch_gate_and_subject_label_witness :
  exists subject body,
    has_label subject "MEDIUM" /\
    handle Sample.model_at_gate (Sample.t0 + 60)%Q [PStr "ops@example.org"]
      Sample.unscored = Ok (Alerted subject body true).
Proof.
  destruct (dispatch_gate_and_subject_label
              Sample.py_str Sample.fmt2f Sample.model_at_gate Sample.features
              Sample.fromtimestamp Sample.strftime "alerts@example.org" "app-password"
              Sample.smtp (Sample.t0 + 60)%Q [PStr "ops@example.org"] Sample.unscored
              (Sample.t0_ms / 1000)%Q 0.4%Q
              "Model prediction: 0.40 probability of tsunami")
    as (_ & _ & subject & Hsubject & _ & _ & _ & Hbody).
  - reflexivity.
  - vm_compute. discriminate.
  - reflexivity.
  - destruct (format_email_body Sample.py_str Sample.fmt2f Sample.fromtimestamp
                Sample.strftime Sample.unscored 0.4%Q
                "Model prediction: 0.40 probability of tsunami") as [body|] eqn:E;
      [|discriminate].
    destruct (Hbody body eq_refl) as [_ Hexact].
    destruct Hexact as [Hlabel Hsent]; [reflexivity|].
    exists subject, body. split; [exact Hlabel|].
    rewrite Hsent. reflexivity.
Defined.

(** C6 fails on the code. The flagged event [us7000test] is alerted by a
    cycle one minute after the earthquake and alerted again, with the same
    identifier, by the cycle that runs fifteen minutes later. *)
Lemma same_identifier_alerted_in_two_cycles :
  Py.getitem Sample.official "id" = Ok (PStr "us7000test") /\
  exists subject body,
    cycle_of None (Sample.world_at (Sample.t0 + 60) (Sample.feed [Sample.official]))
      = Ok (Processed [Ok (Alerted subject body true)] 1) /\
    cycle_of None (Sample.world_at (Sample.t0 + 960) (Sample.feed [Sample.official]))
      = Ok (Processed [Ok (Alerted subject body true)] 1).
Proof.
  split; [reflexivity|]. eexists _, _. split; vm_compute; reflexivity.
Qed.

Lemma alerted_event_in_later_cycle_witness :
  exists subject body,
    handle None (Sample.t0 + 60)%Q [PStr "ops@example.org"] Sample.official
      = Ok (Alerted subject body true) /\
    handle None (Sample.t0 + 2000)%Q [PStr "ops@example.org"] Sample.official
      = Ok TooOld /\
    handle None (Sample.t0 + 960)%Q [PStr "ops@example.org"] Sample.official
      = Ok (Alerted subject body true).
Proof.
  destruct (handle None (Sample.t0 + 60)%Q [PStr "ops@example.org"] Sample.official)
    as [[| |subject body [|]]|] eqn:Hfirst; try discriminate.
  exists subject, body. split; [reflexivity|].
  destruct (alerted_event_in_later_cycle
              Sample.py_str Sample.fmt2f None Sample.features
              Sample.fromtimestamp Sample.strftime "alerts@example.org" "app-password"
              Sample.smtp (Sample.t0 + 60)%Q (Sample.t0 + 2000)%Q
              [PStr "ops@example.org"] Sample.official
              (Sample.t0_ms / 1000)%Q subject body true eq_refl Hfirst)
    as [Hold _].
  destruct (alerted_event_in_later_cycle
              Sample.py_str Sample.fmt2f None Sample.features
              Sample.fromtimestamp Sample.strftime "alerts@example.org" "app-password"
              Sample.smtp (Sample.t0 + 60)%Q (Sample.t0 + 960)%Q
              [PStr "ops@example.org"] Sample.official
              (Sample.t0_ms / 1000)%Q subject body true eq_refl Hfirst)
    as [_ Hrecent].
  split.
  - apply Hold. vm_compute. reflexivity.
  - apply Hrecent. vm_compute. discriminate.
Defined.

(** C8 fails on the code. The primary feed answers 200 with a JSON
    document that has no [features] entry; no interrupt arrives; the first
    cycle raises [KeyError] out of [process_earthquakes] and the loop of
    [main] ends there, with no cycle after it. *)
Lemma loop_stopped_by_payload_without_features :
  cycle_of None (Sample.world_at Sample.t0 Sample.error_document) = Raise KeyError /\
  forall n,
    main_of None (fun _ => Sample.world_at Sample.t0 Sample.error_document)
      (fun _ => false) (S n)
    = StoppedByError 0 KeyError.
Proof. split; [reflexivity | intros n; reflexivity]. Qed.

(** A feed whose first event has no depth and whose second is flagged:
    the first event raises, the second is alerted, and the loop goes on. *)
Lemma loop_survives_cycle_failures_witness :
  main_of None
    (fun _ => Sample.world_at (Sample.t0 + 60)
                (Sample.feed [Sample.strong_no_depth; Sample.official]))
    (fun _ => false) 7
  = Running 7 /\
  exists subject body,
    cycle_of None
      (Sample.world_at (Sample.t0 + 60)
         (Sample.feed [Sample.strong_no_depth; Sample.official]))
    = Ok (Processed [Raise IndexError; Ok (Alerted subject body true)] 1).
Proof.
  split.
  - apply (loop_survives_cycle_failures
             Sample.py_str Sample.fmt2f None Sample.features
             Sample.fromtimestamp Sample.strftime "alerts@example.org" "app-password"
             Sample.smtp Sample.smtp_ends Sample.sleep 900%Z
             (fun _ => Sample.world_at (Sample.t0 + 60)
                         (Sample.feed [Sample.strong_no_depth; Sample.official]))
             (fun _ => false)).
    + reflexivity.
    + reflexivity.
    + reflexivity.
    + intros i. right. eexists. reflexivity.
  - eexists _, _. vm_compute. reflexivity.
Defined.

Lemma risk_level_table_witness :
  Dashboard.risk_level 0.5 = Dashboard.Moderate /\
  Dashboard.tier_rank (Dashboard.risk_level 0.39)
    <= Dashboard.tier_rank (Dashboard.risk_level 0.4).
Proof.
  destruct DashboardFacts.risk_level_table as (Hintervals & Hmonotone & _).
  split.
  - destruct (Hintervals 0.5%Q) as (_ & _ & Hmoderate & _); [lra|].
    apply Hmoderate. lra.
  - apply Hmonotone. lra.
Defined.

Lemma load_email_recipients_well_shaped_witness :
  (Recipients.load_email_recipients Sample.emails_txt).1 = [PStr "ops@example.org"] /\
  Forall Recipients.well_shaped (Recipients.load_email_recipients Sample.emails_txt).1.
Proof.
  split.
  - apply (RecipientsFacts.load_email_recipients_well_shaped Sample.emails_txt).
    reflexivity.
  - apply (RecipientsFacts.load_email_recipients_well_shaped Sample.emails_txt).
Defined.

(** ** Further properties of the recipient list *)

Module RecipientsMore.
Import Recipients.

Lemma valid_emails_bad_item items bad :
  bad ∈ items -> not_a_container bad -> exists e, valid_emails items = Raise e.
Proof.
  induction items as [|x rest IH]; intros Hin Hbad; [inversion Hin|].
  cbn [valid_emails].
  destruct (valid_email x) as [keep|e] eqn:Hkeep; [|eauto].
  rewrite bind_Ok. apply elem_of_cons in Hin as [<- | Hin].
  - destruct bad; try contradiction; discriminate.
  - destruct (IH Hin Hbad) as [e ->]. eauto.
Qed.

(** One item of the list that is a number, a boolean or null makes the
    whole file unusable: the valid addresses beside it are dropped too,
    the default pair is returned, and a writable file is overwritten with
    the default pair. *)
Theorem one_bad_item_discards_file file items bad :
  content file = Ok (PList items) ->
  bad ∈ items ->
  not_a_container bad ->
  (load_email_recipients file).1 = default_emails /\
  (writable file = true ->
     content (load_email_recipients file).2 = Ok (PList default_emails)).
Proof.
  intros Hcontent Hin Hbad. unfold load_email_recipients, read_emails.
  rewrite Hcontent, bind_Ok. cbn [Py.iter]. rewrite bind_Ok.
  destruct (valid_emails_bad_item _ _ Hin Hbad) as [e ->].
  split; [reflexivity|]. now intros ->.
Qed.

(** Loading is stable: loading again from the file the first call left
    gives the same recipients and leaves the same file.  After a fallback
    that could write, the second call reads the default pair from the file
    instead of falling back again. *)
Theorem load_email_recipients_stable file :
  load_email_recipients (load_email_recipients file).2 = load_email_recipients file /\
  (forall e, read_emails file = Raise e -> writable file = true ->
     read_emails (load_email_recipients file).2 = Ok default_emails).
Proof.
  unfold load_email_recipients.
  destruct (read_emails file) as [valid|e] eqn:Hread; cbn [snd].
  - rewrite Hread. split; [reflexivity | discriminate].
  - destruct (writable file) eqn:Hw.
    + split; [reflexivity | intros; reflexivity].
    + rewrite Hread, Hw. split; [reflexivity | discriminate].
Qed.

End RecipientsMore.

(** ** Further properties of the fetcher *)

Module FetcherMore.
Import Fetcher.

(** The fetcher asks the primary first and at most the backup after it;
    it asks the backup exactly when the primary answered with a status
    other than 200; and data other than [None] is the decoded body of a
    200 answer of the last URL asked. *)
Theorem fetch_requests_and_data net :
  let data := (fetch_earthquake_data net).1 in
  let asked := (fetch_earthquake_data net).2 in
  (asked = [USGS_API_URL] \/ asked = [USGS_API_URL; BACKUP_API_URL]) /\
  (asked = [USGS_API_URL; BACKUP_API_URL] <->
     exists status_code json,
       net USGS_API_URL = Reply status_code json /\ status_code <> 200%Z) /\
  (data <> PNone -> exists u, last asked = Some u /\ answers_200 (net u) data).
Proof.
  unfold fetch_earthquake_data, answers_200.
  destruct (net USGS_API_URL) as [e|code body] eqn:Hprimary.
  - cbn. repeat split; auto; try discriminate.
    + intros (c & j & Hc & _). discriminate.
    + intros H. contradiction.
  - destruct (Z.eqb_spec code 200) as [->|Hcode].
    + destruct body as [data|e]; cbn; repeat split; auto; try discriminate.
      * intros (c & j & Hc & Hne). injection Hc as <- _. contradiction.
      * intros _. exists USGS_API_URL. now rewrite Hprimary.
      * intros (c & j & Hc & Hne). injection Hc as <- _. contradiction.
      * intros H. contradiction.
    + assert (Hboth : exists c j, Reply code body = Reply c j /\ c <> 200%Z)
        by (exists code, body; auto).
      destruct (net BACKUP_API_URL) as [e|code' body'] eqn:Hbackup;
        [cbn; repeat split; auto; intros H; contradiction|].
      destruct (Z.eqb_spec code' 200) as [->|Hcode'];
        [destruct body' as [data|e]|]; cbn; repeat split; auto;
        try (intros H; contradiction).
      intros _. exists BACKUP_API_URL. now rewrite Hbackup.
Qed.

End FetcherMore.

(** ** Properties of the launcher's file check *)

Module SystemFacts.
Import System.

(** [check_files] answers [False] exactly when the model file is missing,
    and then touches nothing.  When it answers [True], [emails.txt]
    exists; if it had to be created, the alert process reads the default
    pair from it and leaves it as it is. *)
Theorem check_files_prepares_recipients d ok d' :
  check_files d = Ok (ok, d') ->
  (ok = false <-> model_pkl d = false) /\
  (ok = false -> d' = d) /\
  (ok = true ->
     emails_txt d' <> None /\
     (emails_txt d <> None -> d' = d) /\
     (emails_txt d = None ->
        Recipients.load_email_recipients (emails_file_of d')
          = (Recipients.default_emails, emails_file_of d'))).
Proof.
  unfold check_files. destruct (model_pkl d) eqn:Hmodel; cbn [negb].
  - destruct (emails_txt d) as [parsed|] eqn:Hemails.
    + intros H. injection H as <- <-. repeat split; try discriminate; try congruence.
    + destruct (emails_writable d); [|discriminate].
      intros H. injection H as <- <-.
      repeat split; try discriminate; try congruence.
  - intros H. injection H as <- <-. repeat split; try discriminate; auto.
Qed.

(** Without [emails.txt] and without the right to create it the check
    does not return: the write raises. *)
Lemma check_files_cannot_create d :
  model_pkl d = true -> emails_txt d = None -> emails_writable d = false ->
  check_files d = Raise IOError.
Proof. unfold check_files. now intros -> -> ->. Qed.

End SystemFacts.

(** ** Properties of the dashboard *)

Module DashboardAppFacts.
Import Dashboard DashboardApp.

Lemma tier_label_cases s :
  (exists t, s = tier_label t) \/ (forall t, s <> tier_label t).
Proof.
  destruct (String.eqb_spec s "Very Low"); [left; now exists VeryLow|].
  destruct (String.eqb_spec s "Low"); [left; now exists Low|].
  destruct (String.eqb_spec s "Moderate"); [left; now exists Moderate|].
  destruct (String.eqb_spec s "High"); [left; now exists High|].
  destruct (String.eqb_spec s "Very High"); [left; now exists VeryHigh|].
  right. intros []; assumption.
Qed.

(** The five tiers have five different colours, none of them the grey
    given to every other string, [N/A] and [Error] included. *)
Theorem get_risk_color_of_tiers :
  (forall t1 t2,
     get_risk_color (tier_label t1) = get_risk_color (tier_label t2) -> t1 = t2) /\
  (forall s, get_risk_color s = color "secondary" <-> forall t, s <> tier_label t).
Proof.
  split.
  - intros [] []; vm_compute; intros H; first [reflexivity | discriminate H].
  - intros s. split.
    + intros Hgrey t ->. destruct t; vm_compute in Hgrey; discriminate.
    + intros Hother. unfold get_risk_color.
      destruct (String.eqb_spec s "Very Low") as [->|_]; [now destruct (Hother VeryLow)|].
      destruct (String.eqb_spec s "Low") as [->|_]; [now destruct (Hother Low)|].
      destruct (String.eqb_spec s "Moderate") as [->|_]; [now destruct (Hother Moderate)|].
      destruct (String.eqb_spec s "High") as [->|_]; [now destruct (Hother High)|].
      destruct (String.eqb_spec s "Very High") as [->|_]; [now destruct (Hother VeryHigh)|].
      reflexivity.
Qed.

Lemma high_risk_label prob :
  is_high_risk (tier_label (risk_level prob)) = Qle_bool 0.6 prob.
Proof.
  destruct (DashboardFacts.risk_level_intervals prob) as (T0 & T1 & T2 & T3 & T4).
  destruct (risk_level prob) eqn:E; cbn;
    repeat match goal with
           | H : ?t = ?t <-> _ |- _ => apply proj1 in H; specialize (H eq_refl)
           | H : _ <-> _ |- _ => clear H
           end;
    symmetry; first [apply Qle_bool_true; lra | apply Qle_bool_false; lra].
Qed.

Lemma count_map {A B} (f : B -> bool) (h : A -> bool) (g : A -> B) (l : list A) :
  (forall x, f (g x) = h x) ->
  length (filter (fun y => f y = true) (map g l))
  = length (filter (fun x => h x = true) l).
Proof.
  intros Hfg. induction l as [|x l IH]; [reflexivity|].
  cbn [map]. rewrite !filter_cons.
  destruct (decide (f (g x) = true)) as [Hf | Hf], (decide (h x = true)) as [Hh | Hh];
    cbn [length]; rewrite ?IH; try reflexivity; rewrite Hfg in Hf; contradiction.
Qed.

Lemma count_replicate (f : string -> bool) n s :
  f s = false -> length (filter (fun y => f y = true) (replicate n s)) = 0.
Proof.
  intros Hf. induction n as [|n IH]; [reflexivity|].
  cbn [replicate]. rewrite filter_cons.
  destruct (decide (f s = true)); [congruence | exact IH].
Qed.

(** The high-risk counter of the dashboard counts the rows whose
    probability is at least 0.6, and counts nothing when there is no model
    or the prediction failed. *)
Theorem high_risk_count_threshold {row : Type}
    (model : option (list row -> result (list Q))) (df : list row) :
  (forall predict_proba probabilities,
     model = Some predict_proba -> predict_proba df = Ok probabilities ->
     high_risk_count (predict_tsunami_risk model df)
     = length (filter (fun prob => Qle_bool 0.6 prob = true) probabilities)) /\
  (model = None -> high_risk_count (predict_tsunami_risk model df) = 0) /\
  (forall predict_proba e,
     model = Some predict_proba -> predict_proba df = Raise e ->
     high_risk_count (predict_tsunami_risk model df) = 0).
Proof.
  unfold high_risk_count, predict_tsunami_risk. repeat split.
  - intros predict_proba probabilities -> ->.
    apply (count_map is_high_risk (Qle_bool 0.6)
             (fun prob => tier_label (risk_level prob))).
    apply high_risk_label.
  - intros ->. now apply count_replicate.
  - intros predict_proba e -> ->. now apply count_replicate.
Qed.

(** The marker of an earthquake is never smaller than 10 nor larger than
    25; between magnitudes 2.5 and 6.25 it is four times the magnitude;
    and a larger magnitude never gets a smaller marker. *)
Theorem marker_size_bounds :
  (forall magnitude, (10 <= marker_size magnitude <= 25)%Q) /\
  (forall magnitude,
     (2.5 <= magnitude <= 6.25)%Q -> (marker_size magnitude == magnitude * 4)%Q) /\
  (forall m1 m2, (m1 <= m2)%Q -> (marker_size m1 <= marker_size m2)%Q).
Proof.
  assert (Hcases : forall magnitude,
             ((magnitude * 4 <= 10)%Q /\ marker_size magnitude = 10%Q) \/
             ((10 < magnitude * 4)%Q /\ (magnitude * 4 < 25)%Q /\
                marker_size magnitude = (magnitude * 4)%Q) \/
             ((25 <= magnitude * 4)%Q /\ marker_size magnitude = 25%Q)).
  { intros magnitude. unfold marker_size, py_max.
    destruct (Qlt_le_dec 10 (magnitude * 4)) as [Hbig | Hsmall].
    - rewrite (Qle_bool_false _ _ Hbig). cbn [negb]. unfold py_min.
      destruct (Qlt_le_dec (magnitude * 4) 25) as [Hlt | Hge].
      + rewrite (Qle_bool_false _ _ Hlt). right. left. auto.
      + rewrite (Qle_bool_true _ _ Hge). right. right. auto.
    - rewrite (Qle_bool_true _ _ Hsmall). cbn [negb]. left. split; [exact Hsmall|].
      reflexivity. }
  split; [|split].
  - intros magnitude.
    destruct (Hcases magnitude) as [[_ ->] | [(H1 & H2 & ->) | [_ ->]]]; split; lra.
  - intros magnitude [Hlow Hhigh].
    destruct (Hcases magnitude) as [[H ->] | [(H1 & H2 & ->) | [H ->]]]; lra.
  - intros m1 m2 Hle.
    destruct (Hcases m1) as [[A ->] | [(A1 & A2 & ->) | [A ->]]],
             (Hcases m2) as [[B ->] | [(B1 & B2 & ->) | [B ->]]]; lra.
Qed.

End DashboardAppFacts.

(** ** Properties of the dashboard's feed table and calculator *)

Module DashboardFeedFacts.
Import Dashboard DashboardApp.

Lemma for_each_raises {A B} (f : A -> result B) l bad e :
  bad ∈ l -> f bad = Raise e -> exists e', PyDict.for_each f l = Raise e'.
Proof.
  induction l as [|x l IH]; intros Hin Hbad; [inversion Hin|].
  cbn [PyDict.for_each]. destruct (f x) as [y|e1] eqn:Hx; [|eauto].
  rewrite bind_Ok. apply elem_of_cons in Hin as [<- | Hin]; [congruence|].
  destruct (IH Hin Hbad) as [e' ->]. eauto.
Qed.

Lemma for_each_ok {A B} (f : A -> result B) l : forall ys,
  PyDict.for_each f l = Ok ys ->
  length ys = length l /\
  forall i x, l !! i = Some x -> exists y, ys !! i = Some y /\ f x = Ok y.
Proof.
  induction l as [|x l IH]; intros ys H.
  - injection H as <-. split; [reflexivity | intros i x Hi; inversion Hi].
  - cbn [PyDict.for_each] in H.
    destruct (f x) as [y|] eqn:Hx; [|discriminate]. rewrite bind_Ok in H.
    destruct (PyDict.for_each f l) as [rest|] eqn:Hrest; [|discriminate].
    rewrite bind_Ok in H. injection H as <-.
    destruct (IH rest eq_refl) as [Hlen Hat]. split; [cbn; now rewrite Hlen|].
    intros [|i] z Hi; [injection Hi as <-; eauto | now apply Hat].
Qed.

Lemma for_each_total {A B} (f : A -> result B) l :
  (forall x, x ∈ l -> exists y, f x = Ok y) -> exists ys, PyDict.for_each f l = Ok ys.
Proof.
  induction l as [|x l IH]; intros Hall; [now exists []|].
  destruct (Hall x) as [y Hy]; [apply elem_of_cons; now left|].
  destruct IH as [ys Hys]; [intros z Hz; apply Hall, elem_of_cons; now right|].
  exists (y :: ys). cbn [PyDict.for_each]. now rewrite Hy, bind_Ok, Hys.
Qed.

Section Feed.

Variable fromtimestamp : Q -> result Q.
Variable strftime : Q -> string.

Lemma earthquake_row_needs_id feature e :
  Py.getitem feature "id" = Raise e ->
  exists e', earthquake_row fromtimestamp strftime feature = Raise e'.
Proof.
  intros Hid. unfold earthquake_row.
  destruct (Py.getitem feature "properties"); [rewrite bind_Ok | eauto].
  destruct (Py.getitem feature "geometry") as [geometry|]; [rewrite bind_Ok | eauto].
  destruct (Py.getitem geometry "coordinates"); [rewrite bind_Ok | eauto].
  rewrite Hid. eauto.
Qed.

Lemma earthquake_row_shape feature row :
  earthquake_row fromtimestamp strftime feature = Ok row ->
  Py.getitem feature "id" = Ok (default PNone (Py.assoc "id" row)) /\
  Py.assoc "tsunami_risk" row = Some (PStr "N/A") /\
  length row = 13.
Proof.
  unfold earthquake_row. intros H.
  repeat match type of H with
         | (?m ≫= _) = Ok _ =>
             let E := fresh "E" in
             destruct m eqn:E; [rewrite bind_Ok in H | discriminate H]
         end.
  injection H as <-. repeat split.
Qed.

(** The dashboard's table is all or nothing, and ignores the status code:
    for a reply of any status whose body decodes, one feature whose row
    cannot be built, for instance one without an [id], empties the whole
    table; when every row can be built the table has one row per feature,
    in the order of the feed, each with the feature's id and the
    placeholder risk [N/A]. *)
Theorem dashboard_table_all_or_nothing status_code data found features :
  Py.getitem data "features" = Ok found ->
  Py.iter found = Ok features ->
  let rows :=
    fetch_recent_earthquakes fromtimestamp strftime
      (Fetcher.Reply status_code (Ok data)) in
  (forall bad e, bad ∈ features ->
     earthquake_row fromtimestamp strftime bad = Raise e -> rows = []) /\
  (forall bad e, bad ∈ features -> Py.getitem bad "id" = Raise e -> rows = []) /\
  ((forall feature, feature ∈ features ->
      exists row, earthquake_row fromtimestamp strftime feature = Ok row) ->
   length rows = length features /\
   forall i feature, features !! i = Some feature ->
     exists row,
       rows !! i = Some row /\
       earthquake_row fromtimestamp strftime feature = Ok row /\
       Py.getitem feature "id" = Ok (default PNone (Py.assoc "id" row)) /\
       Py.assoc "tsunami_risk" row = Some (PStr "N/A")).
Proof.
  intros Hfound Hiter rows.
  assert (Hrows : rows = match PyDict.for_each (earthquake_row fromtimestamp strftime)
                                 features with
                         | Ok earthquakes => earthquakes
                         | Raise _ => []
                         end).
  { subst rows. unfold fetch_recent_earthquakes, read_feed.
    now rewrite bind_Ok, Hfound, bind_Ok, Hiter, bind_Ok. }
  assert (Hbad : forall bad e, bad ∈ features ->
             earthquake_row fromtimestamp strftime bad = Raise e -> rows = []).
  { intros bad e Hin Hraise. rewrite Hrows.
    now destruct (for_each_raises _ _ _ _ Hin Hraise) as [e' ->]. }
  split; [exact Hbad|]. split.
  - intros bad e Hin Hid. destruct (earthquake_row_needs_id bad e Hid) as [e' He'].
    now apply (Hbad bad e').
  - intros Hall. destruct (for_each_total _ _ Hall) as [ys Hys].
    rewrite Hys in Hrows. subst ys.
    destruct (for_each_ok _ _ _ Hys) as [Hlen Hat]. split; [exact Hlen|].
    intros i feature Hi. destruct (Hat i feature Hi) as (row & Hrow & Hbuilt).
    exists row. destruct (earthquake_row_shape _ _ Hbuilt) as (Hid & Hrisk & _). auto.
Qed.

(** No reply at all, or a body that does not decode, gives the empty
    table as well. *)
Lemma dashboard_table_on_failure reply :
  (exists e, reply = Fetcher.NoReply e) \/
  (exists status_code e, reply = Fetcher.Reply status_code (Raise e)) ->
  fetch_recent_earthquakes fromtimestamp strftime reply = [].
Proof. now intros [[e ->] | (c & e & ->)]. Qed.

End Feed.

(** The calculator: nothing is shown before the first click; a missing
    field is reported without asking the model; with all fields filled the
    label shown is the first one [predict_tsunami_risk] returns, in its
    colour, so that without a model the result reads [N/A] and with a
    failing model it reads [Error], both in grey. *)
Theorem calculator_outputs model n_clicks magnitude depth latitude longitude magtype sig :
  let out :=
    calculate_tsunami_risk model n_clicks magnitude depth latitude longitude magtype sig in
  let fields := [magnitude; depth; latitude; longitude; magtype; sig] in
  let frame := [input_row magnitude depth latitude longitude magtype sig] in
  (n_clicks = PNone \/ Py.eq_num n_clicks 0 = true -> out = NoOutput) /\
  (n_clicks <> PNone -> Py.eq_num n_clicks 0 = false ->
     (PNone ∈ fields -> out = FillInFields) /\
     (PNone ∉ fields ->
        (model = None -> out = Prediction "N/A" (color "secondary")) /\
        (forall predict_proba e, model = Some predict_proba ->
           predict_proba frame = Raise e ->
           out = Prediction "Error" (color "secondary")) /\
        (forall predict_proba prob rest, model = Some predict_proba ->
           predict_proba frame = Ok (prob :: rest) ->
           out = Prediction (tier_label (risk_level prob))
                   (get_risk_color (tier_label (risk_level prob)))) /\
        (forall predict_proba, model = Some predict_proba ->
           predict_proba frame = Ok [] -> out = CalculationError))).
Proof.
  intros out fields frame. subst out. unfold calculate_tsunami_risk. split.
  - intros [-> | Hzero]; [reflexivity|]. rewrite Hzero. now rewrite orb_true_r.
  - intros Hclicked Hnonzero.
    assert (Hgo : PyDict.is_none n_clicks || Py.eq_num n_clicks 0 = false).
    { rewrite Hnonzero. now destruct n_clicks. }
    rewrite Hgo. fold fields. fold frame.
    assert (Hnone : existsb PyDict.is_none fields = true <-> PNone ∈ fields).
    { rewrite existsb_exists. split.
      - intros (x & Hx & Hnone). destruct x; try discriminate.
        now apply list_elem_of_In.
      - intros Hin. exists PNone. split; [now apply list_elem_of_In | reflexivity]. }
    split.
    + intros Hin. apply Hnone in Hin. now rewrite Hin.
    + intros Hfull.
      destruct (existsb PyDict.is_none fields) eqn:E;
        [exfalso; apply Hfull, Hnone; reflexivity|].
      unfold predict_tsunami_risk. repeat split.
      * now intros ->.
      * now intros predict_proba e -> ->.
      * now intros predict_proba prob rest -> ->.
      * now intros predict_proba -> ->.
Qed.

End DashboardFeedFacts.

(** ** Properties of the monitor *)

Module MonitorFacts.
Import Monitor.

Lemma assoc_set_item_eq k v d : Py.assoc k (PyDict.set_item k v d) = Some v.
Proof.
  induction d as [|[k' v'] d IH]; cbn.
  - now rewrite String.eqb_refl.
  - destruct (String.eqb_spec k k') as [->|Hne]; cbn.
    + now rewrite String.eqb_refl.
    + destruct (String.eqb_spec k k'); [contradiction | exact IH].
Qed.

Lemma assoc_set_item_ne k k' v d :
  k' <> k -> Py.assoc k' (PyDict.set_item k v d) = Py.assoc k' d.
Proof.
  intros Hne. induction d as [|[k0 v0] d IH]; cbn.
  - destruct (String.eqb_spec k' k); [contradiction | reflexivity].
  - destruct (String.eqb_spec k k0) as [->|Hk]; cbn.
    + destruct (String.eqb_spec k' k0); [contradiction | reflexivity].
    + destruct (String.eqb_spec k' k0); [reflexivity | exact IH].
Qed.

Lemma mem_elem_of k names : PyDict.mem k names = true <-> k ∈ names.
Proof.
  unfold PyDict.mem. rewrite existsb_exists. split.
  - intros (x & Hx & Heq). apply String.eqb_eq in Heq as ->. now apply list_elem_of_In.
  - intros Hin. exists k. split; [now apply list_elem_of_In | apply String.eqb_refl].
Qed.

(** After the clearing loop over [names], a [magType_] column of [names]
    is 0 and every other key is as before. *)
Lemma assoc_cleared (names : list string) : forall d f,
  Py.assoc f
    (fold_left
       (fun d col =>
          if PyDict.startswith "magType_" col
          then PyDict.set_item col (PNum 0) d else d)
       names d)
  = if PyDict.startswith "magType_" f && PyDict.mem f names
    then Some (PNum 0) else Py.assoc f d.
Proof.
  induction names as [|col names IH]; intros d f.
  - cbn. now rewrite andb_false_r.
  - cbn [fold_left]. rewrite IH. unfold PyDict.mem. cbn [existsb].
    fold (PyDict.mem f names).
    destruct (PyDict.startswith "magType_" f) eqn:Hf; cbn [andb].
    + destruct (PyDict.mem f names); [now rewrite orb_true_r|].
      rewrite orb_false_r.
      destruct (String.eqb_spec f col) as [->|Hne].
      * rewrite Hf. apply assoc_set_item_eq.
      * destruct (PyDict.startswith "magType_" col); [|reflexivity].
        now apply assoc_set_item_ne.
    + destruct (PyDict.startswith "magType_" col) eqn:Hcol; [|reflexivity].
      apply assoc_set_item_ne. intros ->. congruence.
Qed.

Section Frame.

Variable py_str : pyval -> string.
Variable features : list string.
Variable model : list (string * pyval) -> result (bool * Q).
Variable fromtimestamp : Q -> result Q.
Variable strftime : Q -> string.

Lemma one_hot_lookup props d d' f :
  one_hot py_str features (PDict props) d = Ok d' ->
  f ∈ features ->
  PyDict.startswith "magType_" f = true ->
  Py.assoc f d' = Some (PNum (indicator py_str props f)).
Proof.
  unfold one_hot, indicator. intros H Hin Hf.
  assert (Hany : existsb (PyDict.startswith "magType_") features = true).
  { apply existsb_exists. exists f. split; [now apply list_elem_of_In | exact Hf]. }
  rewrite Hany in H.
  assert (Hget : Py.get (PDict props) "magType" (PStr "")
                 = Ok (default (PStr "") (Py.assoc "magType" props))).
  { unfold Py.get. now destruct (Py.assoc "magType" props). }
  rewrite Hget, bind_Ok in H. injection H as <-.
  set (col := "magType_" ++ _).
  assert (Hcleared : Py.assoc f (clear_mag_types features d) = Some (PNum 0)).
  { unfold clear_mag_types. rewrite assoc_cleared, Hf.
    now rewrite (proj2 (mem_elem_of f features) Hin). }
  destruct (String.eqb_spec f col) as [->|Hne].
  - rewrite (proj2 (mem_elem_of col features) Hin). apply assoc_set_item_eq.
  - destruct (PyDict.mem col features); [|exact Hcleared].
    now rewrite assoc_set_item_ne.
Qed.

(** One-hot encoding of the magnitude type.  The frame given to the model
    has exactly the columns of the feature list, in its order; each
    [magType_] column is 1 when it is the column of the event's magnitude
    type and 0 otherwise, so a type without a column leaves them all 0. *)
Theorem prediction_df_one_hot earthquake props frame :
  Py.getitem earthquake "properties" = Ok (PDict props) ->
  prediction_df py_str features earthquake = Ok frame ->
  frame.*1 = features /\
  (forall f, f ∈ features -> PyDict.startswith "magType_" f = true ->
     Py.assoc f frame = Some (PNum (indicator py_str props f))) /\
  ("magType_" ++ fstr py_str (default (PStr "") (Py.assoc "magType" props)) ∉ features ->
   forall f, f ∈ features -> PyDict.startswith "magType_" f = true ->
     Py.assoc f frame = Some (PNum 0)).
Proof.
  intros Hprops H. unfold prediction_df in H.
  destruct (earthquake_features py_str features earthquake) as [d|] eqn:Hd; [|discriminate].
  rewrite bind_Ok in H. injection H as <-.
  assert (Hcol : forall f, f ∈ features -> PyDict.startswith "magType_" f = true ->
             Py.assoc f (select features d) = Some (PNum (indicator py_str props f))).
  { intros f Hin Hf. unfold select.
    rewrite (assoc_map_key (fun k => Py.assoc k d) (default (PNum 0)) f features Hin).
    unfold earthquake_features in Hd. rewrite Hprops, bind_Ok in Hd.
    repeat match type of Hd with
           | (?m ≫= _) = Ok _ =>
               let E := fresh "E" in
               destruct m eqn:E; [rewrite bind_Ok in Hd | discriminate Hd]
           end.
    now rewrite (one_hot_lookup _ _ _ _ Hd Hin Hf). }
  split; [|split].
  - unfold select. rewrite <- list_fmap_compose.
    clear. induction features as [|f l IH]; [reflexivity|]. cbn. now rewrite IH.
  - exact Hcol.
  - intros Hnot f Hin Hf. rewrite (Hcol f Hin Hf). unfold indicator.
    destruct (String.eqb_spec f
                ("magType_" ++ fstr py_str (default (PStr "") (Py.assoc "magType" props))))
      as [->|_]; [contradiction | reflexivity].
Qed.

(** A report is produced only for an event that carries an [id], a
    [properties] dict with a numeric [time], and coordinates, and only
    when the model answered on the frame built from the event; the report
    repeats the model's answer and the event's id.  An event without
    [time] is therefore dropped by the monitor. *)
Theorem report_requirements earthquake r :
  process_earthquake py_str features model fromtimestamp strftime earthquake = Some r ->
  (exists props time_ms seconds,
     Py.getitem earthquake "properties" = Ok (PDict props) /\
     Py.assoc "time" props = Some time_ms /\
     Py.num time_ms = Some seconds) /\
  Py.getitem earthquake "id" = Ok (id r) /\
  (exists frame,
     prediction_df py_str features earthquake = Ok frame /\
     model frame = Ok (tsunami_predicted r, tsunami_probability r)) /\
  earthquake_features py_str features earthquake = Ok (features_used r).
Proof.
  unfold process_earthquake, build_report, prediction_df. intros H.
  destruct (earthquake_features py_str features earthquake) as [d|] eqn:Hd;
    [|discriminate].
  rewrite bind_Ok in H.
  destruct (model (select features d)) as [[prediction probability]|] eqn:Hmodel;
    [|discriminate].
  rewrite bind_Ok in H.
  destruct (Py.getitem earthquake "properties") as [properties|] eqn:Hp; [|discriminate].
  rewrite bind_Ok in H.
  destruct (Py.getitem earthquake "geometry") as [geometry|] eqn:Hg; [|discriminate].
  rewrite bind_Ok in H.
  destruct (Py.getitem earthquake "id") as [i|] eqn:Hi; [|discriminate].
  rewrite bind_Ok in H.
  destruct (Py.getitem properties "time") as [time_ms|] eqn:Ht; [|discriminate].
  rewrite bind_Ok in H.
  destruct (Py.div time_ms 1000) as [seconds|] eqn:Hs; [|discriminate].
  rewrite bind_Ok in H.
  repeat match type of H with
         | try_opt (?m ≫= _) = Some _ =>
             let E := fresh "E" in
             destruct m eqn:E; [rewrite bind_Ok in H | discriminate H]
         end.
  injection H as <-. cbn [id tsunami_predicted tsunami_probability features_used].
  split; [|split; [reflexivity|split; [|reflexivity]]].
  - destruct properties as [| | | | |props]; try discriminate.
    unfold Py.getitem in Ht. destruct (Py.assoc "time" props) as [t|] eqn:Hat;
      [|discriminate].
    injection Ht as ->. unfold Py.div in Hs.
    destruct (Py.num time_ms) as [x|] eqn:Hx; [|discriminate]. eauto 10.
  - exists (select features d). rewrite bind_Ok. auto.
Qed.

(** Put the other way round: an event whose properties have no [time]
    gets no report, whatever the model would say. *)
Lemma no_time_no_report earthquake props :
  Py.getitem earthquake "properties" = Ok (PDict props) ->
  Py.assoc "time" props = None ->
  process_earthquake py_str features model fromtimestamp strftime earthquake = None.
Proof.
  intros Hprops Htime.
  destruct (process_earthquake py_str features model fromtimestamp strftime earthquake)
    as [r|] eqn:H; [|reflexivity].
  destruct (report_requirements _ _ H) as ((props' & t & s & Hp & Ht & _) & _).
  congruence.
Qed.

End Frame.

End MonitorFacts.

(** ** The further properties on sample inputs *)

Local Abbreviation alert_world payload :=
  (Sample.world_at (Sample.t0 + 60) payload).

Lemma prepare_prediction_data_columns_witness :
  exists frame,
    prepare_prediction_data Cases.features_with_extra Sample.official = Some frame /\
    frame.*1 = Cases.features_with_extra /\
    Py.assoc "nst" frame = Some (PNum 0).
Proof.
  eexists. split; [reflexivity|].
  destruct (prepare_prediction_data_columns Cases.features_with_extra Sample.official
              _ eq_refl) as (Hcolumns & row & _ & Hat).
  split; [exact Hcolumns|].
  apply (Hat "nst").
  - repeat constructor.
  - rewrite list_elem_of_In. cbn. intuition discriminate.
Defined.

Lemma no_geometry_no_model_witness :
  score Sample.model_at_gate Cases.no_geometry =
    Ok (0.3%Q, "Moderate earthquake - low tsunami risk").
Proof.
  apply (no_geometry_no_model Sample.py_str Sample.fmt2f Sample.model_at_gate
           Sample.features Cases.no_geometry (Sample.props_of 6.2 0 Sample.t0_ms)
           (PNum 6.2) 6.2%Q KeyError).
  - reflexivity.
  - apply sample_flag_not_set.
  - reflexivity.
  - reflexivity.
  - lra.
  - reflexivity.
  - lra.
  - lra.
Defined.

Lemma alert_subject_and_body_agree_witness :
  exists subject body,
    handle None (Sample.t0 + 60)%Q [PStr "ops@example.org"] Sample.official
      = Ok (Alerted subject body true) /\
    has_label subject "HIGH" /\
    body_risk_level body = "High" /\
    body_reason body = "Official tsunami alert already issued".
Proof.
  destruct (handle None (Sample.t0 + 60)%Q [PStr "ops@example.org"] Sample.official)
    as [[| |subject body [|]]|] eqn:Hsent; try discriminate.
  exists subject, body. split; [reflexivity|].
  destruct (alert_subject_and_body_agree _ _ _ _ _ _ _ _ _ _ _ _ _ _ _ Hsent)
    as (probability & reason & label & Hrisk & Hlabel & Hwhich & Hstyle & _ & Hreason).
  injection Hrisk as <- <-.
  destruct Hwhich as [[-> _] | [_ [_ Hlt]]]; [|exfalso; revert Hlt; clear; intros; lra].
  split; [exact Hlabel|]. split; [now injection Hstyle | exact Hreason].
Defined.

Lemma no_credentials_no_alert_sent_witness :
  exists outcomes,
    process_earthquakes Sample.py_str Sample.fmt2f None Sample.features
      Sample.fromtimestamp Sample.strftime "" "app-password" Sample.smtp
      (alert_world (Sample.feed [Sample.official]))
    = Ok (Processed outcomes 0) /\
    forall subject body success,
      Ok (Alerted subject body success) ∈ outcomes -> success = false.
Proof.
  destruct (process_earthquakes Sample.py_str Sample.fmt2f None Sample.features
              Sample.fromtimestamp Sample.strftime "" "app-password" Sample.smtp
              (alert_world (Sample.feed [Sample.official])))
    as [c|] eqn:Hrun; [|discriminate].
  destruct (no_credentials_no_alert_sent _ _ _ _ _ _ _ _ _ _ c (or_introl eq_refl) Hrun)
    as [-> | [-> | (outcomes & -> & Hnone)]]; try discriminate.
  exists outcomes. split; [reflexivity | exact Hnone].
Defined.

Lemma format_email_body_cells_witness :
  exists body,
    format_email_body Sample.py_str Sample.fmt2f Sample.fromtimestamp Sample.strftime
      Sample.strong_no_depth 0.9%Q "reason" = Ok body /\
    body_depth body = "N/A".
Proof.
  destruct (format_email_body_cells Sample.py_str Sample.fmt2f Sample.fromtimestamp
              Sample.strftime Sample.strong_no_depth (Sample.t0_ms / 1000)%Q
              (PDict [("type", PStr "Point");
                      ("coordinates", PList Sample.point_without_depth)])
              Sample.point_without_depth 0.9%Q "reason" eq_refl eq_refl eq_refl)
    as (body & Hbody & Hdepth & _).
  exists body. split; [exact Hbody | exact Hdepth].
Defined.

Lemma score_without_model_witness :
  (0.7 = 1.0 \/ 0.7 = 0.9 \/ 0.7 = 0.7 \/ 0.7 = 0.3 \/ 0.7 = 0.1)%Q.
Proof.
  apply (score_without_model Sample.py_str Sample.fmt2f None Sample.features
           Sample.strong_shallow 0.7%Q
           "Shallow large earthquake - moderate tsunami risk");
    reflexivity.
Defined.

Lemma alerts_without_model_witness :
  exists subject body,
    handle None (Sample.t0 + 60)%Q [PStr "ops@example.org"] Sample.strong_shallow
      = Ok (Alerted subject body true) /\
    has_label subject "HIGH" /\ body_risk_level body = "High".
Proof.
  destruct (handle None (Sample.t0 + 60)%Q [PStr "ops@example.org"] Sample.strong_shallow)
    as [[| |subject body [|]]|] eqn:Hsent; try discriminate.
  exists subject, body. split; [reflexivity|].
  apply (alerts_without_model Sample.py_str Sample.fmt2f None Sample.features
           Sample.fromtimestamp Sample.strftime "alerts@example.org" "app-password"
           Sample.smtp (Sample.t0 + 60)%Q [PStr "ops@example.org"] Sample.strong_shallow
           eq_refl) with (success := true).
  exact Hsent.
Defined.

Lemma both_feeds_unusable_skips_cycle_witness :
  cycle_of None {| net := Cases.both_down; emails := Sample.emails_txt;
                   clock := fun _ => Sample.t0 |} = Ok NoData.
Proof.
  apply (both_feeds_unusable_skips_cycle Sample.py_str Sample.fmt2f None Sample.features
           Sample.fromtimestamp Sample.strftime "alerts@example.org" "app-password"
           Sample.smtp
           {| net := Cases.both_down; emails := Sample.emails_txt;
              clock := fun _ => Sample.t0 |}
           500%Z (Raise ValueError)).
  - reflexivity.
  - lia.
  - exact I.
Defined.

Lemma main_running_iff_witness :
  main_of None (fun _ => alert_world (Sample.feed [Sample.official])) (fun _ => false) 3
  = Running 3.
Proof.
  apply main_running_iff.
  intros i _. split; [reflexivity|]. split; [vm_compute; reflexivity|].
  split; [|reflexivity]. eexists. vm_compute. reflexivity.
Defined.

Lemma main_stops_at_first_failure_witness :
  main_of None Cases.worlds_failing_at_2 (fun _ => false) 5 = StoppedByError 2 KeyError.
Proof.
  apply (main_stops_at_first_failure Sample.py_str Sample.fmt2f None Sample.features
           Sample.fromtimestamp Sample.strftime "alerts@example.org" "app-password"
           Sample.smtp Sample.smtp_ends Sample.sleep 900%Z
           Cases.worlds_failing_at_2 (fun _ => false) 2).
  - reflexivity.
  - intros i Hi. split; [reflexivity|].
    destruct i as [|[|i]];
      [split; [vm_compute; reflexivity | eexists; vm_compute; reflexivity] ..| lia].
  - reflexivity.
  - reflexivity.
  - lia.
Defined.

Lemma no_valid_address_skips_cycle_witness :
  cycle_of None {| net := Sample.primary_up (Sample.feed [Sample.official]);
                   emails := Cases.emails_all_invalid;
                   clock := fun _ => (Sample.t0 + 60)%Q |} = Ok NoRecipients.
Proof.
  apply (no_valid_address_skips_cycle Sample.py_str Sample.fmt2f None Sample.features
           Sample.fromtimestamp Sample.strftime "alerts@example.org" "app-password"
           Sample.smtp _ Cases.invalid_addresses [Sample.official]).
  - reflexivity.
  - reflexivity.
  - reflexivity.
  - intros x Hx. apply elem_of_cons in Hx as [-> | Hx]; [eexists; split; reflexivity|].
    apply elem_of_cons in Hx as [-> | Hx]; [eexists; split; reflexivity|].
    inversion Hx.
Defined.

Lemma one_bad_item_discards_file_witness :
  (Recipients.load_email_recipients Cases.emails_with_number).1
  = Recipients.default_emails.
Proof.
  apply (RecipientsMore.one_bad_item_discards_file Cases.emails_with_number
           [PStr "ops@example.org"; PNum 42] (PNum 42)).
  - reflexivity.
  - repeat constructor.
  - exact I.
Defined.

Lemma load_email_recipients_stable_witness :
  Recipients.read_emails (Recipients.load_email_recipients Cases.emails_missing).2
  = Ok Recipients.default_emails.
Proof.
  apply (proj2 (RecipientsMore.load_email_recipients_stable Cases.emails_missing) IOError);
    reflexivity.
Defined.

Lemma fetch_requests_and_data_witness :
  exists u,
    last (Fetcher.fetch_earthquake_data Cases.backup_up).2 = Some u /\
    answers_200 (Cases.backup_up u) (Sample.feed [Sample.official]).
Proof.
  destruct (FetcherMore.fetch_requests_and_data Cases.backup_up) as (_ & _ & Hdata).
  apply Hdata. discriminate.
Defined.

Lemma check_files_prepares_recipients_witness :
  let d' := {| System.model_pkl := true;
               System.emails_txt := Some (Ok (PList Recipients.default_emails));
               System.emails_writable := true |} in
  System.check_files Cases.disk_without_emails = Ok (true, d') /\
  Recipients.load_email_recipients (System.emails_file_of d')
  = (Recipients.default_emails, System.emails_file_of d').
Proof.
  intros d'. split; [reflexivity|].
  destruct (SystemFacts.check_files_prepares_recipients
              Cases.disk_without_emails true d' eq_refl) as (_ & _ & Hprepared).
  destruct (Hprepared eq_refl) as (_ & _ & Hload). exact (Hload eq_refl).
Defined.

Lemma get_risk_color_of_tiers_witness :
  DashboardApp.get_risk_color "N/A" = "#858796".
Proof.
  apply (proj2 DashboardAppFacts.get_risk_color_of_tiers "N/A").
  intros []; discriminate.
Defined.

Lemma high_risk_count_threshold_witness :
  DashboardApp.high_risk_count
    (Dashboard.predict_tsunami_risk (Some (fun _ => Ok [0.65; 0.3; 0.9]%Q)) [tt; tt; tt])
  = 2.
Proof.
  rewrite (proj1 (DashboardAppFacts.high_risk_count_threshold
                    (Some (fun _ => Ok [0.65; 0.3; 0.9]%Q)) [tt; tt; tt])
             (fun _ => Ok [0.65; 0.3; 0.9]%Q) [0.65; 0.3; 0.9]%Q eq_refl eq_refl).
  reflexivity.
Defined.

Lemma marker_size_bounds_witness :
  (DashboardApp.marker_size 5 == 5 * 4)%Q /\ (DashboardApp.marker_size 9.1 <= 25)%Q.
Proof.
  destruct DashboardAppFacts.marker_size_bounds as (Hbounds & Hlinear & _).
  split; [apply Hlinear; lra | apply Hbounds].
Defined.

Lemma dashboard_table_all_or_nothing_witness :
  DashboardApp.fetch_recent_earthquakes Sample.fromtimestamp Sample.strftime
    (Fetcher.Reply 500 (Ok (Sample.feed [Sample.official; Cases.no_id])))
  = [].
Proof.
  apply (proj1 (proj2 (DashboardFeedFacts.dashboard_table_all_or_nothing
                         Sample.fromtimestamp Sample.strftime 500%Z
                         (Sample.feed [Sample.official; Cases.no_id])
                         (PList [Sample.official; Cases.no_id])
                         [Sample.official; Cases.no_id] eq_refl eq_refl))
           Cases.no_id KeyError).
  - repeat constructor.
  - reflexivity.
Defined.

Lemma calculator_outputs_witness :
  DashboardApp.calculate_tsunami_risk None (PNum 1) (PNum 7) (PNum 10) (PNum 35)
    (PNum 140) (PStr "mw") (PNum 600)
  = DashboardApp.Prediction "N/A" "#858796".
Proof.
  destruct (DashboardFeedFacts.calculator_outputs None (PNum 1) (PNum 7) (PNum 10)
              (PNum 35) (PNum 140) (PStr "mw") (PNum 600)) as (_ & Hclicked).
  destruct Hclicked as (_ & Hfilled); [discriminate | reflexivity |].
  destruct Hfilled as (Hlimited & _).
  - rewrite list_elem_of_In. cbn. intuition discriminate.
  - exact (Hlimited eq_refl).
Defined.

Lemma prediction_df_one_hot_witness :
  exists frame,
    Monitor.prediction_df Sample.py_str Cases.one_hot_features Cases.typed = Ok frame /\
    Py.assoc "magType_mw" frame = Some (PNum 1) /\
    Py.assoc "magType_mww" frame = Some (PNum 0).
Proof.
  eexists. split; [reflexivity|].
  destruct (MonitorFacts.prediction_df_one_hot Sample.py_str Cases.one_hot_features
              Cases.typed Cases.typed_props _ eq_refl eq_refl) as (_ & Hone_hot & _).
  split.
  - apply (Hone_hot "magType_mw"); [repeat constructor | reflexivity].
  - apply (Hone_hot "magType_mww"); [repeat constructor | reflexivity].
Defined.

Lemma report_requirements_witness :
  exists r,
    Monitor.process_earthquake Sample.py_str Cases.one_hot_features Cases.monitor_model
      Sample.fromtimestamp Sample.strftime Cases.typed = Some r /\
    Py.getitem Cases.typed "id" = Ok (Monitor.id r) /\
    Cases.monitor_model (Monitor.select Cases.one_hot_features (Monitor.features_used r))
    = Ok (Monitor.tsunami_predicted r, Monitor.tsunami_probability r).
Proof.
  eexists. split; [reflexivity|].
  destruct (MonitorFacts.report_requirements Sample.py_str Cases.one_hot_features
              Cases.monitor_model Sample.fromtimestamp Sample.strftime Cases.typed
              _ eq_refl) as (_ & Hid & _ & _).
  split; [exact Hid | reflexivity].
Defined.

(** An interval of a thousand million minutes is more than [time.sleep]
    takes: the first cycle runs, the sleep raises, and the loop is over. *)
Lemma rejected_interval_stops_after_one_cycle_witness :
  main Sample.py_str Sample.fmt2f None Sample.features
    Sample.fromtimestamp Sample.strftime "alerts@example.org" "app-password"
    Sample.smtp Sample.smtp_ends Sample.sleep 60000000000%Z
    (fun _ => alert_world (Sample.feed [Sample.official])) (fun _ => false) 3
  = StoppedByError 1 OverflowError.
Proof.
  apply rejected_interval_stops_after_one_cycle.
  - reflexivity.
  - reflexivity.
  - vm_compute. reflexivity.
  - eexists. vm_compute. reflexivity.
Defined.
